(** * Ideal-function selection and test-point mapping

    A shallow embedding of [processors.MathEngine] and of the pipeline
    [mains.run_assignment], followed by the properties of the selection
    and classification loops.

    Numbers.  The pipeline works on Python floats held in pandas Series.
    Three readings of its arithmetic are used, each named where it is
    used.

    - Exact values.  In [MathEngine] and in the pipeline built on it a
      finite float is a real number and [np.sqrt(2)] is the real square
      root: rounding, overflow and underflow are left out.  The two
      special values that the code itself manufactures are kept apart,
      namely [float('inf')] (the initial running minimum of both loops)
      and [nan] (a position missing after index alignment, or the
      maximum of a Series without any valid entry).  Columns read from
      the CSV tables hold finite values.
    - Scores left open.  In [Scored] the selection loop takes the score
      of a candidate as given, so that what is proved of the loop holds
      for the scores the program computes, whatever their rounding.
    - Doubles.  In [Float64] the score is computed on IEEE 754 binary64
      values, where a square can overflow to [inf].

    Scope.  [run_assignment] is modelled from the point where the three
    tables have been read: the calls that open the database, read the
    CSV files and write the result tables stand in the same [try] block
    of the source, and a failure of one of them is outside this model. *)

From Stdlib Require Import String Ascii DecimalString DecimalNat DecimalFacts.
From Stdlib Require Import ZArith Reals Lra Lia Bool Arith List Permutation.
From Stdlib Require PrimFloat.
Import ListNotations.

Local Open Scope string_scope.
Local Open Scope R_scope.

(** ** Python floats *)

Inductive pyfloat : Type :=
| Finite (r : R)
| PInf
| NaN.

(** [a < b]; every comparison with [nan] is false. *)
Definition flt (a b : pyfloat) : bool :=
  match a, b with
  | Finite x, Finite y => if Rlt_dec x y then true else false
  | Finite _, PInf => true
  | _, _ => false
  end.

(** [a <= b]. *)
Definition fle (a b : pyfloat) : bool :=
  match a, b with
  | Finite x, Finite y => if Rle_dec x y then true else false
  | Finite _, PInf => true
  | PInf, PInf => true
  | _, _ => false
  end.

(** [a ** 2]. *)
Definition fsquare (a : pyfloat) : pyfloat :=
  match a with
  | Finite x => Finite (x * x)
  | PInf => PInf
  | NaN => NaN
  end.

(** [abs(a)]. *)
Definition fabs (a : pyfloat) : pyfloat :=
  match a with
  | Finite x => Finite (Rabs x)
  | PInf => PInf
  | NaN => NaN
  end.

(** [a + b] on finite values and [+inf]. *)
Definition fadd (a b : pyfloat) : pyfloat :=
  match a, b with
  | NaN, _ | _, NaN => NaN
  | PInf, _ | _, PInf => PInf
  | Finite x, Finite y => Finite (x + y)
  end.

(** [a * k] for a finite factor [k > 0] (here [np.sqrt(2)]). *)
Definition fscale (a : pyfloat) (k : R) : pyfloat :=
  match a with
  | Finite x => Finite (x * k)
  | PInf => PInf
  | NaN => NaN
  end.

(** ** Exceptions and results *)

(** [KeyError], [IndexError] and [DataValidationError] are the conditions
    the pipeline can raise.  The last three names belong to the
    specification's vocabulary; no code path constructs them. *)
Inductive exn : Type :=
| KeyError
| IndexError
| DataValidationError (cause : exn)
| DimensionMismatch
| NoCandidatesAvailable
| UnknownX.

Inductive result (A : Type) : Type :=
| Ok (a : A)
| Raise (e : exn).

Arguments Ok {A} a.
Arguments Raise {A} e.

Definition bind {A B : Type} (m : result A) (k : A -> result B) : result B :=
  match m with
  | Ok a => k a
  | Raise e => Raise e
  end.

Notation "x <- m ;; k" := (bind m (fun x => k))
  (at level 61, m at next level, right associativity).

(** ** pandas Series and DataFrames *)

(** A column as loaded from a table: finite values under the default
    index [0, 1, 2, ...]. *)
Definition Series := list R.

(** [a - b] on two Series aligns them on the union of their indexes; a
    position present in only one operand becomes [nan]. *)
Fixpoint series_sub (a b : Series) : list pyfloat :=
  match a, b with
  | x :: a', y :: b' => Finite (x - y) :: series_sub a' b'
  | _ :: _, [] => map (fun _ => NaN) a
  | [], _ => map (fun _ => NaN) b
  end.

(** [Series.sum()] (default [skipna=True]): [nan] entries are skipped and
    the sum of nothing is [0.0]. *)
Fixpoint series_sum (s : list pyfloat) : pyfloat :=
  match s with
  | [] => Finite 0
  | NaN :: s' => series_sum s'
  | v :: s' => fadd v (series_sum s')
  end.

(** [np.max] on a Series dispatches to [Series.max()], which skips [nan]
    entries and yields [nan] when no valid entry is left. *)
Definition fmax_skipna (v m : pyfloat) : pyfloat :=
  match v, m with
  | NaN, _ => m
  | _, NaN => v
  | PInf, _ | _, PInf => PInf
  | Finite x, Finite y => Finite (Rmax x y)
  end.

Fixpoint series_max (s : list pyfloat) : pyfloat :=
  match s with
  | [] => NaN
  | v :: s' => fmax_skipna v (series_max s')
  end.

(** A table is its columns, by name, in file order. *)
Definition DataFrame := list (string * Series).

Fixpoint df_col (df : DataFrame) (name : string) : option Series :=
  match df with
  | [] => None
  | (c, s) :: df' => if String.eqb c name then Some s else df_col df' name
  end.

(** [df[name]] *)
Definition getitem (df : DataFrame) (name : string) : result Series :=
  match df_col df name with
  | Some s => Ok s
  | None => Raise KeyError
  end.

(** ** processors.MathEngine *)

Module MathEngine.

(** [((train_y - ideal_y) ** 2).sum()] *)
Definition calculate_least_squares (train_y ideal_y : Series) : pyfloat :=
  series_sum (map fsquare (series_sub train_y ideal_y)).

(** [max_diff = np.max(np.abs(train_y - ideal_y))],
    then [max_diff * np.sqrt(2)] *)
Definition get_threshold (train_y ideal_y : Series) : pyfloat :=
  let max_diff := series_max (map fabs (series_sub train_y ideal_y)) in
  fscale max_diff (sqrt 2).

End MathEngine.

(** ** mains.run_assignment *)

(** The f-string [f'y{i}']. *)
Definition ycol (i : nat) : string :=
  "y" ++ NilZero.string_of_uint (Nat.to_uint i).

(** [range(a, b)] *)
Definition range (a b : nat) : list nat := seq a (b - a).

(** [selected_ideals]: a dict from training column to the chosen ideal
    column, in insertion order.  [best_fit_name] starts as [None]. *)
Definition dict := list (string * option string).

Fixpoint dict_set (d : dict) (k : string) (v : option string) : dict :=
  match d with
  | [] => [(k, v)]
  | (k', v') :: d' =>
      if String.eqb k' k then (k', v) :: d' else (k', v') :: dict_set d' k v
  end.

(** A row of [test_df]: [(row['x'], row['y'])]. *)
Definition TestRow := (R * R)%type.

(** An entry of [test_results_list]. *)
Record ResultRow : Type := mkResultRow {
  x : R;
  y : R;
  delta_y : pyfloat;
  ideal_function_no : string
}.

(** Truthiness of [best_map], which is [None] or a column name. *)
Definition truthy (best_map : option string) : option string :=
  match best_map with
  | Some EmptyString => None
  | Some s => Some s
  | None => None
  end.

(** [ideal_df.loc[ideal_df['x'] == x_val, ideal_col].values[0]]:
    the mask over the x column, the selected column restricted to the
    mask, and its first element. *)
Definition loc_first (ideal_df : DataFrame) (x_val : R)
    (ideal_col : option string) : result R :=
  xs <- getitem ideal_df "x" ;;
  col <- match ideal_col with
         | Some c => getitem ideal_df c
         | None => Raise KeyError
         end ;;
  match filter (fun p => if Req_dec_T (fst p) x_val then true else false)
               (combine xs col) with
  | [] => Raise IndexError
  | p :: _ => Ok (snd p)
  end.

Section Pipeline.

Variables train_df ideal_df : DataFrame.

(** The inner loop [for j in range(1, 51)], for the labels still to be
    scanned and the current [(min_sse, best_fit_name)]. *)
Fixpoint scan_ideals (train_col : string) (js : list nat)
    (min_sse : pyfloat) (best_fit_name : option string)
    : result (pyfloat * option string) :=
  match js with
  | [] => Ok (min_sse, best_fit_name)
  | j :: js' =>
      let ideal_col := ycol j in
      train_y <- getitem train_df train_col ;;
      ideal_y <- getitem ideal_df ideal_col ;;
      let sse := MathEngine.calculate_least_squares train_y ideal_y in
      if flt sse min_sse
      then scan_ideals train_col js' sse (Some ideal_col)
      else scan_ideals train_col js' min_sse best_fit_name
  end.

(** The outer loop [for i in range(1, 5)]. *)
Fixpoint select_ideals (labels : list nat) (selected_ideals : dict)
    : result dict :=
  match labels with
  | [] => Ok selected_ideals
  | i :: labels' =>
      let train_col := ycol i in
      best <- scan_ideals train_col (range 1 51) PInf None ;;
      select_ideals labels' (dict_set selected_ideals train_col (snd best))
  end.

(** The loop over [selected_ideals.items()] for one test row, with the
    current [(min_deviation, best_map)]. *)
Fixpoint map_items (x_val y_val : R) (items : dict)
    (min_deviation : pyfloat) (best_map : option string)
    : result (pyfloat * option string) :=
  match items with
  | [] => Ok (min_deviation, best_map)
  | (train_col, ideal_col) :: items' =>
      ideal_y <- loc_first ideal_df x_val ideal_col ;;
      let deviation := Finite (Rabs (y_val - ideal_y)) in
      train_s <- getitem train_df train_col ;;
      ideal_s <- match ideal_col with
                 | Some c => getitem ideal_df c
                 | None => Raise KeyError
                 end ;;
      let threshold := MathEngine.get_threshold train_s ideal_s in
      if fle deviation threshold
      then
        if flt deviation min_deviation
        then map_items x_val y_val items' deviation ideal_col
        else map_items x_val y_val items' min_deviation best_map
      else map_items x_val y_val items' min_deviation best_map
  end.

(** The body of [for _, row in test_df.iterrows()]: the rows it appends
    to [test_results_list]. *)
Definition map_row (selected_ideals : dict) (row : TestRow)
    : result (list ResultRow) :=
  let x_val := fst row in
  let y_val := snd row in
  m <- map_items x_val y_val selected_ideals PInf None ;;
  match truthy (snd m) with
  | Some name => Ok [mkResultRow x_val y_val (fst m) name]
  | None => Ok []
  end.

Fixpoint map_rows (selected_ideals : dict) (rows : list TestRow)
    (test_results_list : list ResultRow) : result (list ResultRow) :=
  match rows with
  | [] => Ok test_results_list
  | row :: rows' =>
      new <- map_row selected_ideals row ;;
      map_rows selected_ideals rows' (test_results_list ++ new)
  end.

(** The two loops of the [try] block, on the tables as read: the
    selections and the result rows handed to the database. *)
Definition run_body (test_df : list TestRow)
    : result (dict * list ResultRow) :=
  selected_ideals <- select_ideals (range 1 5) [] ;;
  test_results_list <- map_rows selected_ideals test_df [] ;;
  Ok (selected_ideals, test_results_list).

(** [except Exception as e: raise DataValidationError(...)] *)
Definition run_assignment (test_df : list TestRow)
    : result (dict * list ResultRow) :=
  match run_body test_df with
  | Ok v => Ok v
  | Raise e => Raise (DataValidationError e)
  end.

End Pipeline.

(** ** Auxiliary definitions used in the statements *)

(** The sum of squared differences over the positions two columns share. *)
Fixpoint sum_sq (a b : Series) : R :=
  match a, b with
  | u :: a', v :: b' => (u - v) * (u - v) + sum_sq a' b'
  | _, _ => 0
  end.

(** The largest absolute difference over the shared positions, when
    there is one. *)
Fixpoint max_abs (a b : Series) : option R :=
  match a, b with
  | u :: a', v :: b' =>
      match max_abs a' b' with
      | Some m => Some (Rmax (Rabs (u - v)) m)
      | None => Some (Rabs (u - v))
      end
  | _, _ => None
  end.

(** [d.get(k)] *)
Fixpoint dict_get (d : dict) (k : string) : option (option string) :=
  match d with
  | [] => None
  | (k', v) :: d' => if String.eqb k' k then Some v else dict_get d' k
  end.

(** What one pass of the mapping loop body computes for an entry of
    [selected_ideals]: the deviation and the threshold it is compared
    with. *)
Definition item_eval (train_df ideal_df : DataFrame) (x_val y_val : R)
    (item : string * option string) : result (R * pyfloat) :=
  ideal_y <- loc_first ideal_df x_val (snd item) ;;
  train_s <- getitem train_df (fst item) ;;
  ideal_s <- match snd item with
             | Some c => getitem ideal_df c
             | None => Raise KeyError
             end ;;
  Ok (Rabs (y_val - ideal_y), MathEngine.get_threshold train_s ideal_s).

(** [deviation <= threshold] *)
Definition qualifies (ev : R * pyfloat) : bool :=
  fle (Finite (fst ev)) (snd ev).

(** The scan shared by both loops, on values already computed: an entry
    is [(admissible, value, label)], and the running minimum is replaced
    by an admissible entry of strictly smaller value. *)
Fixpoint first_min {B : Type} (cs : list (bool * R * B))
    (m : pyfloat) (best : B) : pyfloat * B :=
  match cs with
  | [] => (m, best)
  | (q, v, b) :: cs' =>
      if q
      then if flt (Finite v) m
           then first_min cs' (Finite v) b
           else first_min cs' m best
      else first_min cs' m best
  end.

(** ** The pipeline with one threshold per selection

    The variant described by the design document: a Selection carries
    the threshold computed once, after the candidate scan, and the
    per-point loop compares against the stored value.  Every test point
    gets a MappingResult. *)

Module Spec.

Record Selection : Type := mkSelection {
  training_label : string;
  candidate_label : option string;
  score : pyfloat;
  threshold : pyfloat
}.


(** Scan all candidates, then compute the threshold and emit. *)
Definition select_one (train_df ideal_df : DataFrame) (train_col : string)
    : result Selection :=
  best <- scan_ideals train_df ideal_df train_col (range 1 51) PInf None ;;
  train_y <- getitem train_df train_col ;;
  best_y <- match snd best with
            | Some c => getitem ideal_df c
            | None => Raise KeyError
            end ;;
  Ok (mkSelection train_col (snd best) (fst best)
        (MathEngine.get_threshold train_y best_y)).

Fixpoint select (train_df ideal_df : DataFrame) (labels : list nat)
    : result (list Selection) :=
  match labels with
  | [] => Ok []
  | i :: labels' =>
      s <- select_one train_df ideal_df (ycol i) ;;
      rest <- select train_df ideal_df labels' ;;
      Ok (s :: rest)
  end.






(** What the source keeps of a Selection and of a MappingResult. *)
Definition as_item (s : Selection) : string * option string :=
  (training_label s, candidate_label s).



End Spec.

(** ** Sample tables *)

(** An ideal table over the grid [xs] whose fifty columns are [c 1],
    ..., [c 50]. *)
Definition mk_ideal (xs : Series) (c : nat -> Series) : DataFrame :=
  ("x", xs) :: map (fun j => (ycol j, c j)) (range 1 51).

(** A training table with the four columns [t 1], ..., [t 4]. *)
Definition mk_train (xs : Series) (t : nat -> Series) : DataFrame :=
  ("x", xs) :: map (fun i => (ycol i, t i)) (range 1 5).

(** Two grid points; every training and every ideal column is the
    identity on the grid. *)
Definition ex_train : DataFrame := mk_train [0; 1] (fun _ => [0; 1]).
Definition ex_ideal : DataFrame := mk_ideal [0; 1] (fun _ => [0; 1]).

(** An ideal table without any candidate column. *)
Definition ex_ideal_empty : DataFrame := [("x", [0; 1])].

(** Entry [k] of [cs] is admissible with value [v] and label [b], no
    admissible entry has a smaller value, and every admissible entry
    before it has a strictly larger one. *)
Definition first_min_at {B : Type} (cs : list (bool * R * B))
    (k : nat) (v : R) (b : B) : Prop :=
  nth_error cs k = Some (true, v, b) /\
  forall k' v' b', nth_error cs k' = Some (true, v', b') ->
                   v <= v' /\ ((k' < k)%nat -> v < v').

(** Label [j0] is the first of the fifty labels at which the score
    against [train_y] is smallest. *)
Definition first_minimizer (train_y : Series) (c : nat -> Series)
    (j0 : nat) : Prop :=
  (1 <= j0 <= 50)%nat /\
  forall j, (1 <= j <= 50)%nat ->
    sum_sq train_y (c j0) <= sum_sq train_y (c j) /\
    ((j < j0)%nat -> sum_sq train_y (c j0) < sum_sq train_y (c j)).

(** A Selection whose stored threshold is the value the source
    recomputes from the two columns it names. *)
Definition selection_ok (train_df ideal_df : DataFrame)
    (s : Spec.Selection) : Prop :=
  exists j0 train_y ideal_y,
    (1 <= j0 <= 50)%nat /\
    Spec.candidate_label s = Some (ycol j0) /\
    getitem train_df (Spec.training_label s) = Ok train_y /\
    getitem ideal_df (ycol j0) = Ok ideal_y /\
    Spec.threshold s = MathEngine.get_threshold train_y ideal_y.

(** The column named [f'y{j}'], empty when the table has none. *)
Definition ycol_of (df : DataFrame) (j : nat) : Series :=
  match df_col df (ycol j) with
  | Some s => s
  | None => []
  end.

(** The tables hold the four training columns [t 1 .. t 4], the grid
    [xs] and the fifty ideal columns [c 1 .. c 50], each as long as the
    grid. *)
Definition tables_ok (train_df ideal_df : DataFrame) (xs : Series)
    (t c : nat -> Series) : Prop :=
  (forall i, (1 <= i <= 4)%nat -> getitem train_df (ycol i) = Ok (t i)) /\
  (forall j, (1 <= j <= 50)%nat -> getitem ideal_df (ycol j) = Ok (c j)) /\
  getitem ideal_df "x" = Ok xs /\
  (forall j, (1 <= j <= 50)%nat -> length (c j) = length xs).

(** The selections on the sample tables: every training column takes
    the first candidate. *)
Definition ex_selected : dict :=
  [("y1", Some "y1"); ("y2", Some "y1"); ("y3", Some "y1"); ("y4", Some "y1")].


(** Test rows: one on the curve, one far off it, one off the grid. *)
Definition row_on_curve : TestRow := (0, 0).
Definition row_far_off : TestRow := (1, 5).

(** A training table without its fourth column, and an ideal table
    without the grid column. *)
Definition ex_train_short : DataFrame :=
  [("x", [0; 1]); ("y1", [0; 1]); ("y2", [0; 1]); ("y3", [0; 1])].

Definition ex_ideal_no_x : DataFrame :=
  map (fun j => (ycol j, [0; 1])) (range 1 51).

(** ** Conditions raised outside [run_assignment] *)

Inductive pyexn : Type :=
| ValueError
| AttributeError
| TypeError
| InvalidDataError.

Inductive outcome (A : Type) : Type :=
| Return (a : A)
| Throw (e : pyexn).

Arguments Return {A} a.
Arguments Throw {A} e.

(** ** processors.MathEngine on numpy operands

    test_logics.py calls the two methods with numpy arrays and with a
    plain float.  Operands of that kind are subtracted by broadcasting,
    not by index alignment: a float or an array of one element is
    stretched over the other operand, and any other pair of different
    lengths is refused with a [ValueError]. *)

Module Ndarray.

Inductive operand : Type :=
| Scalar (r : R)
| Array (l : list R).

(** [a - b] *)
Definition subtract (a b : operand) : outcome operand :=
  match a, b with
  | Scalar u, Scalar v => Return (Scalar (u - v))
  | Scalar u, Array l => Return (Array (map (fun v => u - v) l))
  | Array l, Scalar v => Return (Array (map (fun u => u - v) l))
  | Array l1, Array l2 =>
      if Nat.eqb (length l1) (length l2)
      then Return (Array (map (fun p => fst p - snd p) (combine l1 l2)))
      else match l1, l2 with
           | [u], _ => Return (Array (map (fun v => u - v) l2))
           | _, [v] => Return (Array (map (fun u => u - v) l1))
           | _, _ => Throw ValueError
           end
  end.

(** [a ** 2] *)
Definition power2 (a : operand) : operand :=
  match a with
  | Scalar u => Scalar (u * u)
  | Array l => Array (map (fun u => u * u) l)
  end.

(** [np.abs(a)] *)
Definition absolute (a : operand) : operand :=
  match a with
  | Scalar u => Scalar (Rabs u)
  | Array l => Array (map Rabs l)
  end.

(** [a.sum()]: a method of arrays; a plain float has none. *)
Definition sum (a : operand) : outcome R :=
  match a with
  | Scalar _ => Throw AttributeError
  | Array l => Return (fold_right Rplus 0 l)
  end.

(** [np.max(a)]: refused on an array without elements. *)
Definition amax (a : operand) : outcome R :=
  match a with
  | Scalar u => Return u
  | Array [] => Throw ValueError
  | Array (u :: l) => Return (fold_right Rmax u l)
  end.

(** [((train_y - ideal_y) ** 2).sum()] *)
Definition calculate_least_squares (train_y ideal_y : operand) : outcome R :=
  match subtract train_y ideal_y with
  | Return d => sum (power2 d)
  | Throw e => Throw e
  end.

(** [np.max(np.abs(train_y - ideal_y)) * np.sqrt(2)] *)
Definition get_threshold (train_y ideal_y : operand) : outcome R :=
  match subtract train_y ideal_y with
  | Return d =>
      match amax (absolute d) with
      | Return max_diff => Return (max_diff * sqrt 2)
      | Throw e => Throw e
      end
  | Throw e => Throw e
  end.

End Ndarray.

(** ** models.IdealFunctions and its use in data_loader.py *)

Module IdealFunctions.

(** A row object: the column attributes given to the constructor.  A
    column attribute that was not given reads as [None]. *)
Definition t := list (string * R).

Fixpoint getattr (self : t) (name : string) : option R :=
  match self with
  | [] => None
  | (k, v) :: self' => if String.eqb k name then Some v else getattr self' name
  end.

(** [IdealFunctions(x=float(row['x']), **y_values)] with
    [y_values = {f'y{i}': float(row[f'y{i}']) for i in range(1, 51)}]. *)
Definition from_row (x_val : R) (row : nat -> R) : t :=
  ("x", x_val) :: map (fun i => (ycol i, row i)) (range 1 51).

(** [get_y_value(self, function_number)] *)
Definition get_y_value (self : t) (function_number : Z)
    : outcome (option R) :=
  if negb ((1 <=? function_number)%Z && (function_number <=? 50)%Z)
  then Throw ValueError
  else Return (getattr self (ycol (Z.to_nat function_number))).

(** [IdealDataLoader.get_function_data], on the rows that the query
    returns: the range check comes before the rows are looked at. *)
Definition get_function_data (data : list t) (function_number : Z)
    : outcome (list (option R * option R)) :=
  if negb ((1 <=? function_number)%Z && (function_number <=? 50)%Z)
  then Throw ValueError
  else
    (fix comprehension (records : list t)
       : outcome (list (option R * option R)) :=
       match records with
       | [] => Return []
       | record :: records' =>
           match get_y_value record function_number with
           | Throw e => Throw e
           | Return v =>
               match comprehension records' with
               | Throw e => Throw e
               | Return rest => Return ((getattr record "x", v) :: rest)
               end
           end
       end) data.

End IdealFunctions.

(** ** visualization.visualize_results

    The three tables are read back from the database that
    [run_assignment] filled; here they are arguments: the training and
    the ideal table, and the column ['ideal_function_no'] of the result
    table.  Drawing itself is not modelled; a plot is what it shows.
    The function prints every exception instead of raising it, so
    [Raise e] stands for "AN ERROR OCCURRED: e". *)

Module Visualization.

Record Plot : Type := mkPlot {
  function_name : string;
  train_points : Series * Series;
  point_color : string;
  ideal_line : Series * Series
}.

Definition colors : list string := ["red"; "blue"; "green"; "orange"].

Definition label_eqb (a b : option string) : bool :=
  match a, b with
  | Some u, Some v => String.eqb u v
  | None, None => true
  | _, _ => false
  end.

(** [Series.unique()]: the values in order of first appearance. *)
Fixpoint unique_from (seen l : list (option string)) : list (option string) :=
  match l with
  | [] => []
  | a :: l' =>
      if existsb (label_eqb a) seen
      then unique_from seen l'
      else a :: unique_from (a :: seen) l'
  end.

Definition unique (l : list (option string)) : list (option string) :=
  unique_from [] l.

(** [[x for x in chosen_ideals if x is not None]] *)
Fixpoint not_none (l : list (option string)) : list string :=
  match l with
  | [] => []
  | Some u :: l' => u :: not_none l'
  | None :: l' => not_none l'
  end.

(** [list.sort()] on strings: ascending in the order of their
    characters. *)
Fixpoint insert (a : string) (l : list string) : list string :=
  match l with
  | [] => [a]
  | b :: l' => if String.leb a b then a :: l else b :: insert a l'
  end.

Fixpoint sort (l : list string) : list string :=
  match l with
  | [] => []
  | a :: l' => insert a (sort l')
  end.

Definition chosen_ideals (labels : list (option string)) : list string :=
  sort (not_none (unique labels)).

(** [l[i]] *)
Definition index {A : Type} (l : list A) (i : nat) : result A :=
  match nth_error l i with
  | Some a => Ok a
  | None => Raise IndexError
  end.

(** [for i, function_name in enumerate(chosen_ideals)], from position
    [i] on. *)
Fixpoint plot_loop (train_df ideal_df : DataFrame) (i : nat)
    (chosen : list string) (individual_plots : list Plot)
    : result (list Plot) :=
  match chosen with
  | [] => Ok individual_plots
  | name :: chosen' =>
      train_x <- getitem train_df "x" ;;
      train_y <- getitem train_df (ycol (i + 1)) ;;
      color <- index colors i ;;
      ideal_x <- getitem ideal_df "x" ;;
      ideal_y <- getitem ideal_df name ;;
      plot_loop train_df ideal_df (S i) chosen'
        (individual_plots ++
         [mkPlot name (train_x, train_y) color (ideal_x, ideal_y)])
  end.

(** The body of the [try] block, up to the grid that is shown. *)
Definition visualize_results (train_df ideal_df : DataFrame)
    (labels : list (option string)) : result (list (list Plot)) :=
  individual_plots <-
    plot_loop train_df ideal_df 0 (chosen_ideals labels) [] ;;
  p0 <- index individual_plots 0 ;;
  p1 <- index individual_plots 1 ;;
  p2 <- index individual_plots 2 ;;
  p3 <- index individual_plots 3 ;;
  Ok [[p0; p1]; [p2; p3]].

End Visualization.

(** The column ['ideal_function_no'] of the records of a run. *)
Definition stored_labels (results : list ResultRow) : list (option string) :=
  map (fun r => Some (ideal_function_no r)) results.

(** ** data_loader.ResultsDataLoader.validate_data *)

Inductive pyval : Type :=
| VFloat (f : pyfloat)
| VInt (z : Z)
| VStr (s : string).

Definition pydict := list (string * pyval).

(** [key in result] and [result[key]] *)
Fixpoint pydict_get (d : pydict) (key : string) : option pyval :=
  match d with
  | [] => None
  | (k, v) :: d' => if String.eqb k key then Some v else pydict_get d' key
  end.

Module ResultsDataLoader.

Definition required_keys : list string :=
  ["x"; "y"; "delta_y"; "ideal_func_number"].

(** [not 1 <= v <= 50]; an integer cannot be compared with a string. *)
Definition out_of_range (v : pyval) : outcome bool :=
  match v with
  | VInt z => Return (negb ((1 <=? z)%Z && (z <=? 50)%Z))
  | VFloat f => Return (negb (fle (Finite 1) f && fle f (Finite 50)))
  | VStr _ => Throw TypeError
  end.

(** The body of [for i, result in enumerate(data)]. *)
Definition validate_entry (result : pydict) : outcome bool :=
  if forallb (fun key => match pydict_get result key with
                         | Some _ => true
                         | None => false
                         end) required_keys
  then
    match pydict_get result "ideal_func_number" with
    | Some v =>
        match out_of_range v with
        | Return true => Throw InvalidDataError
        | Return false => Return true
        | Throw e => Throw e
        end
    | None => Throw InvalidDataError
    end
  else Throw InvalidDataError.

Fixpoint validate_data (data : list pydict) : outcome bool :=
  match data with
  | [] => Return true
  | result :: data' =>
      match validate_entry result with
      | Return _ => validate_data data'
      | Throw e => Throw e
      end
  end.

End ResultsDataLoader.

(** The dict that [run_assignment] appends for a record. *)
Definition as_dict (r : ResultRow) : pydict :=
  [("x", VFloat (Finite (x r))); ("y", VFloat (Finite (y r)));
   ("delta_y", VFloat (delta_y r));
   ("ideal_function_no", VStr (ideal_function_no r))].

(** ** The selection loop on the scores as computed

    [MathEngine.calculate_least_squares] adds exact squares; the program
    adds doubles.  What the selection loop does with a score does not
    depend on how the score was computed: [Scored] is the loop of
    mains.py, lines 40-52, with the score left open.  [score train_y
    ideal_y] stands for whatever
    [engine_logic.calculate_least_squares(train_df[train_col],
    ideal_df[ideal_col])] returns: a finite value, [inf] or [nan]. *)

Module Scored.

Section Loop.

Variable score : Series -> Series -> pyfloat.
Variables train_df ideal_df : DataFrame.

(** [for j in range(1, 51)] *)
Fixpoint scan_ideals (train_col : string) (js : list nat)
    (min_sse : pyfloat) (best_fit_name : option string)
    : result (pyfloat * option string) :=
  match js with
  | [] => Ok (min_sse, best_fit_name)
  | j :: js' =>
      let ideal_col := ycol j in
      train_y <- getitem train_df train_col ;;
      ideal_y <- getitem ideal_df ideal_col ;;
      let sse := score train_y ideal_y in
      if flt sse min_sse
      then scan_ideals train_col js' sse (Some ideal_col)
      else scan_ideals train_col js' min_sse best_fit_name
  end.

(** [for i in range(1, 5)] *)
Fixpoint select_ideals (labels : list nat) (selected_ideals : dict)
    : result dict :=
  match labels with
  | [] => Ok selected_ideals
  | i :: labels' =>
      let train_col := ycol i in
      best <- scan_ideals train_col (range 1 51) PInf None ;;
      select_ideals labels' (dict_set selected_ideals train_col (snd best))
  end.

End Loop.

End Scored.

(** A score as an entry of [first_min]: only a finite score can be below
    [float('inf')] or below a finite running minimum. *)
Definition score_entry {B : Type} (s : pyfloat) (b : B) : bool * R * B :=
  match s with
  | Finite v => (true, v, b)
  | _ => (false, 0, b)
  end.

(** ** The selection step in double arithmetic

    The selection step on IEEE 754 binary64 values, the floats of Python
    and of the float64 columns that [pd.read_csv] builds.  [Series.sum()]
    replaces [nan] entries by [0.0] and hands the values to numpy's
    [sum]; numpy groups the additions of a long array in blocks, so the
    grouping is left open as [np_sum]. *)

Module Float64.

Import PrimFloat.

Definition Series := list float.

Definition DataFrame := list (string * Series).

Fixpoint df_col (df : DataFrame) (name : string) : option Series :=
  match df with
  | [] => None
  | (c, s) :: df' => if String.eqb c name then Some s else df_col df' name
  end.

(** [df[name]] *)
Definition getitem (df : DataFrame) (name : string) : result Series :=
  match df_col df name with
  | Some s => Ok s
  | None => Raise KeyError
  end.

(** [a - b] with index alignment. *)
Fixpoint series_sub (a b : Series) : Series :=
  match a, b with
  | x :: a', y :: b' => (x - y)%float :: series_sub a' b'
  | _ :: _, [] => map (fun _ => nan) a
  | [], _ => map (fun _ => nan) b
  end.

(** [v ** 2] *)
Definition square (v : float) : float := (v * v)%float.

(** Adding from left to right, as numpy does for a short array. *)
Definition sum_left (l : list float) : float := fold_left add l 0%float.

Section Engine.

Variable np_sum : list float -> float.

(** [Series.sum()] with [skipna=True]. *)
Definition series_sum (s : Series) : float :=
  np_sum (map (fun v => if is_nan v then 0%float else v) s).

(** [((train_y - ideal_y) ** 2).sum()] *)
Definition calculate_least_squares (train_y ideal_y : Series) : float :=
  series_sum (map square (series_sub train_y ideal_y)).

Variables train_df ideal_df : DataFrame.

(** [for j in range(1, 51)], with [min_sse = float('inf')] at the
    start. *)
Fixpoint scan_ideals (train_col : string) (js : list nat)
    (min_sse : float) (best_fit_name : option string)
    : result (float * option string) :=
  match js with
  | [] => Ok (min_sse, best_fit_name)
  | j :: js' =>
      let ideal_col := ycol j in
      train_y <- getitem train_df train_col ;;
      ideal_y <- getitem ideal_df ideal_col ;;
      let sse := calculate_least_squares train_y ideal_y in
      if (sse <? min_sse)%float
      then scan_ideals train_col js' sse (Some ideal_col)
      else scan_ideals train_col js' min_sse best_fit_name
  end.

(** [for i in range(1, 5)] *)
Fixpoint select_ideals (labels : list nat) (selected_ideals : dict)
    : result dict :=
  match labels with
  | [] => Ok selected_ideals
  | i :: labels' =>
      let train_col := ycol i in
      best <- scan_ideals train_col (range 1 51) infinity None ;;
      select_ideals labels' (dict_set selected_ideals train_col (snd best))
  end.

End Engine.

(** A table over the grid [xs] with the columns [c j] for [j] in
    [labels]. *)
Definition mk_table (xs : Series) (labels : list nat) (c : nat -> Series)
    : DataFrame :=
  ("x", xs) :: map (fun j => (ycol j, c j)) labels.

(** The value that [float('1e200')] denotes. *)
#[warnings="-inexact-float"] Definition huge : float := 1e200%float.

(** One grid point; every training value is [1e200] and every ideal
    value is [0.0]. *)
Definition ex_train_huge : DataFrame :=
  mk_table [0%float] (range 1 5) (fun _ => [huge]).

Definition ex_ideal_zero : DataFrame :=
  mk_table [0%float] (range 1 51) (fun _ => [0%float]).

End Float64.

(** * Properties of [MathEngine] *)

Import MathEngine.

Lemma series_sum_all_nan (A : Type) (l : list A) :
  series_sum (map fsquare (map (fun _ => NaN) l)) = Finite 0.
Proof. induction l as [|u l IH]; simpl; auto. Qed.

Lemma series_max_all_nan (A : Type) (l : list A) :
  series_max (map fabs (map (fun _ => NaN) l)) = NaN.
Proof. induction l as [|u l IH]; simpl; auto. Qed.

Lemma calculate_least_squares_real (a b : Series) :
  calculate_least_squares a b = Finite (sum_sq a b).
Proof.
  unfold calculate_least_squares.
  revert b; induction a as [|u a IH]; intros [|v b].
  - reflexivity.
  - apply (series_sum_all_nan R (v :: b)).
  - apply (series_sum_all_nan R (u :: a)).
  - cbn [series_sub map series_sum fsquare sum_sq].
    rewrite IH. reflexivity.
Qed.

Lemma get_threshold_real (a b : Series) :
  get_threshold a b =
  match max_abs a b with
  | Some m => Finite (m * sqrt 2)
  | None => NaN
  end.
Proof.
  unfold get_threshold. cbv zeta.
  assert (H : series_max (map fabs (series_sub a b)) =
              match max_abs a b with Some m => Finite m | None => NaN end).
  { revert b; induction a as [|u a IH]; intros [|v b].
    - reflexivity.
    - apply (series_max_all_nan R (v :: b)).
    - apply (series_max_all_nan R (u :: a)).
    - cbn [series_sub map series_max fabs max_abs].
      rewrite IH. destruct (max_abs a b); reflexivity. }
  rewrite H. destruct (max_abs a b); reflexivity.
Qed.

Lemma sum_sq_nonneg (a b : Series) : 0 <= sum_sq a b.
Proof.
  revert b; induction a as [|u a IH]; intros [|v b]; simpl; try lra.
  specialize (IH b). pose proof (Rle_0_sqr (u - v)) as Hsq.
  unfold Rsqr in Hsq. lra.
Qed.

Lemma sum_sq_refl (s : Series) : sum_sq s s = 0.
Proof. induction s as [|u s IH]; simpl; [reflexivity | rewrite IH; ring]. Qed.

Lemma sum_sq_firstn (a b : Series) :
  sum_sq a b =
  sum_sq (firstn (Nat.min (length a) (length b)) a)
         (firstn (Nat.min (length a) (length b)) b).
Proof.
  revert b; induction a as [|u a IH]; intros [|v b]; simpl; try reflexivity.
  rewrite <- IH. reflexivity.
Qed.

Lemma max_abs_firstn (a b : Series) :
  max_abs a b =
  max_abs (firstn (Nat.min (length a) (length b)) a)
          (firstn (Nat.min (length a) (length b)) b).
Proof.
  revert b; induction a as [|u a IH]; intros [|v b]; simpl; try reflexivity.
  rewrite <- IH. reflexivity.
Qed.





Lemma max_abs_refl (s : Series) : s <> [] -> max_abs s s = Some 0.
Proof.
  induction s as [|u s IH]; [congruence|]. intros _. simpl.
  replace (u - u) with 0 by ring. rewrite Rabs_R0.
  destruct s as [|w s].
  - reflexivity.
  - rewrite IH by discriminate. f_equal. apply Rmax_left. lra.
Qed.

(** * Comparisons *)

Lemma flt_Finite (a b : R) : flt (Finite a) (Finite b) = true <-> a < b.
Proof.
  simpl. destruct (Rlt_dec a b); split; auto; discriminate.
Qed.

Lemma fle_Finite (a b : R) : fle (Finite a) (Finite b) = true <-> a <= b.
Proof.
  simpl. destruct (Rle_dec a b); split; auto; discriminate.
Qed.

Lemma flt_Finite_false (a b : R) : flt (Finite a) (Finite b) = false <-> b <= a.
Proof.
  simpl. destruct (Rlt_dec a b); split; auto; try discriminate; lra.
Qed.

Lemma fle_Finite_false (a b : R) : fle (Finite a) (Finite b) = false <-> b < a.
Proof.
  simpl. destruct (Rle_dec a b); split; auto; try discriminate; lra.
Qed.

(** * The scan for the first minimum *)

Section FirstMin.

Context {B : Type}.

Lemma first_min_acc (cs : list (bool * R * B)) :
  forall (m0 : R) (b0 : B),
    (first_min cs (Finite m0) b0 = (Finite m0, b0) /\
     forall k v b, nth_error cs k = Some (true, v, b) -> m0 <= v) \/
    (exists k v b,
        first_min cs (Finite m0) b0 = (Finite v, b) /\
        v < m0 /\ first_min_at cs k v b).
Proof.
  induction cs as [|[[q v] b1] cs IH]; intros m0 b0.
  - left. split; [reflexivity|]. intros [|k] v b H; discriminate.
  - cbn [first_min]. destruct q.
    + destruct (flt (Finite v) (Finite m0)) eqn:E.
      * apply flt_Finite in E. right.
        destruct (IH v b1) as [[Heq Hall] | (k & v2 & b2 & Heq & Hlt & Hnth & Hmin)].
        -- exists 0%nat, v, b1. split; [exact Heq|]. split; [exact E|].
           split; [reflexivity|].
           intros [|k'] v' b' H; cbn [nth_error] in H.
           ++ injection H as <- <-. split; [lra | lia].
           ++ split; [eapply Hall; eauto | lia].
        -- exists (S k), v2, b2. split; [exact Heq|]. split; [lra|].
           split; [exact Hnth|].
           intros [|k'] v' b' H; cbn [nth_error] in H.
           ++ injection H as <- <-. split; [lra | intros _; lra].
           ++ destruct (Hmin _ _ _ H) as [H1 H2]. split; [exact H1|].
              intros Hk. apply H2. lia.
      * apply flt_Finite_false in E.
        destruct (IH m0 b0) as [[Heq Hall] | (k & v2 & b2 & Heq & Hlt & Hnth & Hmin)].
        -- left. split; [exact Heq|].
           intros [|k'] v' b' H; cbn [nth_error] in H.
           ++ injection H as <- <-. exact E.
           ++ eapply Hall; eauto.
        -- right. exists (S k), v2, b2. split; [exact Heq|]. split; [exact Hlt|].
           split; [exact Hnth|].
           intros [|k'] v' b' H; cbn [nth_error] in H.
           ++ injection H as <- <-. split; [lra | intros _; lra].
           ++ destruct (Hmin _ _ _ H) as [H1 H2]. split; [exact H1|].
              intros Hk. apply H2. lia.
    + destruct (IH m0 b0) as [[Heq Hall] | (k & v2 & b2 & Heq & Hlt & Hnth & Hmin)].
      * left. split; [exact Heq|].
        intros [|k'] v' b' H; cbn [nth_error] in H; [discriminate|].
        eapply Hall; eauto.
      * right. exists (S k), v2, b2. split; [exact Heq|]. split; [exact Hlt|].
        split; [exact Hnth|].
        intros [|k'] v' b' H; cbn [nth_error] in H; [discriminate|].
        destruct (Hmin _ _ _ H) as [H1 H2]. split; [exact H1|].
        intros Hk. apply H2. lia.
Qed.

(** From [float('inf')]: either nothing is admissible and the state is
    untouched, or the state is the first minimum. *)
Lemma first_min_spec (cs : list (bool * R * B)) (b0 : B) :
  (first_min cs PInf b0 = (PInf, b0) /\
   forall k v b, nth_error cs k <> Some (true, v, b)) \/
  (exists k v b,
      first_min cs PInf b0 = (Finite v, b) /\ first_min_at cs k v b).
Proof.
  induction cs as [|[[q v] b1] cs IH].
  - left. split; [reflexivity|]. intros [|k] v b H; discriminate.
  - cbn [first_min]. destruct q.
    + cbn [flt]. right.
      destruct (first_min_acc cs v b1)
        as [[Heq Hall] | (k & v2 & b2 & Heq & Hlt & Hnth & Hmin)].
      * exists 0%nat, v, b1. split; [exact Heq|]. split; [reflexivity|].
        intros [|k'] v' b' H; cbn [nth_error] in H.
        -- injection H as <- <-. split; [lra | lia].
        -- split; [eapply Hall; eauto | lia].
      * exists (S k), v2, b2. split; [exact Heq|]. split; [exact Hnth|].
        intros [|k'] v' b' H; cbn [nth_error] in H.
        -- injection H as <- <-. split; [lra | intros _; lra].
        -- destruct (Hmin _ _ _ H) as [H1 H2]. split; [exact H1|].
           intros Hk. apply H2. lia.
    + destruct IH as [[Heq Hall] | (k & v2 & b2 & Heq & Hnth & Hmin)].
      * left. split; [exact Heq|].
        intros [|k'] v' b' H; cbn [nth_error] in H; [discriminate|].
        eapply Hall; eauto.
      * right. exists (S k), v2, b2. split; [exact Heq|].
        split; [exact Hnth|].
        intros [|k'] v' b' H; cbn [nth_error] in H; [discriminate|].
        destruct (Hmin _ _ _ H) as [H1 H2]. split; [exact H1|].
        intros Hk. apply H2. lia.
Qed.

End FirstMin.

(** * Column names *)

Lemma to_uint_nonnil (n : nat) : Nat.to_uint n <> Decimal.Nil.
Proof.
  rewrite <- (Unsigned.of_to n) at 1. rewrite Unsigned.to_of.
  apply DecimalFacts.unorm_nonnil.
Qed.

Lemma ycol_inj (i j : nat) : ycol i = ycol j -> i = j.
Proof.
  unfold ycol. cbn [append]. intros H. injection H as H.
  assert (Hs : NilZero.uint_of_string (NilZero.string_of_uint (Nat.to_uint i)) =
               NilZero.uint_of_string (NilZero.string_of_uint (Nat.to_uint j)))
    by (rewrite H; reflexivity).
  rewrite !NilZero.usu in Hs by apply to_uint_nonnil.
  injection Hs as Hs. apply Unsigned.to_uint_inj in Hs. exact Hs.
Qed.

Lemma ycol_not_x (i : nat) : String.eqb "x" (ycol i) = false.
Proof. reflexivity. Qed.

Lemma ycol_nonempty (i : nat) : truthy (Some (ycol i)) = Some (ycol i).
Proof. reflexivity. Qed.

Lemma df_col_ycols (c : nat -> Series) (js : list nat) (j : nat) :
  In j js -> df_col (map (fun j => (ycol j, c j)) js) (ycol j) = Some (c j).
Proof.
  induction js as [|j' js IH]; intros Hin; [contradiction|].
  cbn [map df_col]. destruct (String.eqb (ycol j') (ycol j)) eqn:E.
  - apply String.eqb_eq, ycol_inj in E. subst; reflexivity.
  - destruct Hin as [->|Hin]; [|auto].
    rewrite String.eqb_refl in E. discriminate.
Qed.

Lemma getitem_mk_ideal (xs : Series) (c : nat -> Series) (j : nat) :
  (1 <= j <= 50)%nat -> getitem (mk_ideal xs c) (ycol j) = Ok (c j).
Proof.
  intros Hj. unfold getitem, mk_ideal. cbn [df_col].
  rewrite ycol_not_x, df_col_ycols; [reflexivity|].
  unfold range. apply in_seq. lia.
Qed.

Lemma getitem_mk_train (xs : Series) (t : nat -> Series) (i : nat) :
  (1 <= i <= 4)%nat -> getitem (mk_train xs t) (ycol i) = Ok (t i).
Proof.
  intros Hi. unfold getitem, mk_train. cbn [df_col].
  rewrite ycol_not_x, df_col_ycols; [reflexivity|].
  unfold range. apply in_seq. lia.
Qed.

Lemma getitem_mk_ideal_y1 (xs : Series) (c : nat -> Series) :
  getitem (mk_ideal xs c) "y1" = Ok (c 1%nat).
Proof. apply (getitem_mk_ideal xs c 1). lia. Qed.

Lemma getitem_mk_ideal_x (xs : Series) (c : nat -> Series) :
  getitem (mk_ideal xs c) "x" = Ok xs.
Proof. reflexivity. Qed.

Lemma nth_error_map_seq (A : Type) (f : nat -> A) (n a k : nat) :
  nth_error (map f (seq a n)) k =
  if (k <? n)%nat then Some (f (a + k)%nat) else None.
Proof.
  revert a k; induction n as [|n IH]; intros a [|k]; cbn [seq map nth_error].
  - reflexivity.
  - reflexivity.
  - rewrite Nat.add_0_r. reflexivity.
  - rewrite IH.
    replace (S a + k)%nat with (a + S k)%nat by lia.
    reflexivity.
Qed.

(** * The candidate scan *)

Section Selection.

Variables train_df ideal_df : DataFrame.

(** The scan is [first_min] over the scores of the scanned columns. *)
Lemma scan_ideals_first_min (train_col : string) (train_y : Series)
    (c : nat -> Series) (js : list nat) :
  getitem train_df train_col = Ok train_y ->
  (forall j, In j js -> getitem ideal_df (ycol j) = Ok (c j)) ->
  forall m b,
    scan_ideals train_df ideal_df train_col js m b =
    Ok (first_min
          (map (fun j => (true, sum_sq train_y (c j), Some (ycol j))) js) m b).
Proof.
  intros Ht. induction js as [|j js IH]; intros Hc m b.
  - reflexivity.
  - cbn [scan_ideals map first_min]. rewrite Ht. cbn [bind].
    rewrite (Hc j) by (left; reflexivity). cbn [bind].
    rewrite calculate_least_squares_real.
    destruct (flt (Finite (sum_sq train_y (c j))) m);
      apply IH; intros; apply Hc; right; assumption.
Qed.

(** A missing column stops the scan at once. *)
Lemma scan_ideals_keyerror (train_col : string) (j : nat) (js : list nat)
    (m : pyfloat) (b : option string) :
  getitem ideal_df (ycol j) = Raise KeyError ->
  scan_ideals train_df ideal_df train_col (j :: js) m b = Raise KeyError.
Proof.
  intros H. cbn [scan_ideals].
  unfold getitem at 1. destruct (df_col train_df train_col); cbn [bind].
  - rewrite H. reflexivity.
  - reflexivity.
Qed.

(** Over the fifty labels the scan returns the first global minimizer. *)
Lemma scan_ideals_argmin (train_col : string) (train_y : Series)
    (c : nat -> Series) :
  getitem train_df train_col = Ok train_y ->
  (forall j, (1 <= j <= 50)%nat -> getitem ideal_df (ycol j) = Ok (c j)) ->
  exists j0,
    scan_ideals train_df ideal_df train_col (range 1 51) PInf None =
      Ok (Finite (sum_sq train_y (c j0)), Some (ycol j0)) /\
    first_minimizer train_y c j0.
Proof.
  intros Ht Hc.
  rewrite (scan_ideals_first_min train_col train_y c) by
    (auto; intros j Hj; apply Hc; unfold range in Hj; apply in_seq in Hj; lia).
  unfold range. change (51 - 1)%nat with 50%nat.
  set (f := fun j => (true, sum_sq train_y (c j), Some (ycol j))).
  destruct (first_min_spec (map f (seq 1 50)) None)
    as [[_ Hnone] | (k & v & b & Heq & Hnth & Hmin)].
  - exfalso. apply (Hnone 0%nat (sum_sq train_y (c 1%nat)) (Some (ycol 1))).
    reflexivity.
  - rewrite nth_error_map_seq in Hnth.
    destruct (k <? 50)%nat eqn:Hk; [|discriminate].
    apply Nat.ltb_lt in Hk. unfold f in Hnth. injection Hnth as <- <-.
    exists (1 + k)%nat. split; [rewrite Heq; reflexivity|].
    split; [lia|]. intros j Hj.
    specialize (Hmin (j - 1)%nat (sum_sq train_y (c j)) (Some (ycol j))).
    rewrite nth_error_map_seq in Hmin.
    replace (j - 1 <? 50)%nat with true in Hmin
      by (symmetry; apply Nat.ltb_lt; lia).
    replace (1 + (j - 1))%nat with j in Hmin by lia.
    destruct (Hmin eq_refl) as [H1 H2]. split; [exact H1|].
    intros Hlt. apply H2. lia.
Qed.

(** The four scans of the outer loop fill [selected_ideals] with the
    first minimizer of each training column. *)
Lemma select_ideals_argmin (t c : nat -> Series) :
  (forall i, (1 <= i <= 4)%nat -> getitem train_df (ycol i) = Ok (t i)) ->
  (forall j, (1 <= j <= 50)%nat -> getitem ideal_df (ycol j) = Ok (c j)) ->
  exists j1 j2 j3 j4,
    select_ideals train_df ideal_df (range 1 5) [] =
      Ok [("y1", Some (ycol j1)); ("y2", Some (ycol j2));
          ("y3", Some (ycol j3)); ("y4", Some (ycol j4))] /\
    first_minimizer (t 1%nat) c j1 /\ first_minimizer (t 2%nat) c j2 /\
    first_minimizer (t 3%nat) c j3 /\ first_minimizer (t 4%nat) c j4.
Proof.
  intros Ht Hc.
  destruct (scan_ideals_argmin (ycol 1) (t 1%nat) c) as (j1 & E1 & M1);
    [apply Ht; lia | exact Hc |].
  destruct (scan_ideals_argmin (ycol 2) (t 2%nat) c) as (j2 & E2 & M2);
    [apply Ht; lia | exact Hc |].
  destruct (scan_ideals_argmin (ycol 3) (t 3%nat) c) as (j3 & E3 & M3);
    [apply Ht; lia | exact Hc |].
  destruct (scan_ideals_argmin (ycol 4) (t 4%nat) c) as (j4 & E4 & M4);
    [apply Ht; lia | exact Hc |].
  exists j1, j2, j3, j4. split; [|auto].
  change (range 1 5) with [1; 2; 3; 4]%nat.
  cbn [select_ideals]. rewrite E1. cbn [bind snd]. rewrite E2. cbn [bind snd].
  rewrite E3. cbn [bind snd]. rewrite E4. reflexivity.
Qed.

End Selection.


(** * The per-point scan *)

Section Mapping.

Variables train_df ideal_df : DataFrame.

(** One pass of the loop body: evaluate the entry, then update. *)
Lemma map_items_cons (x_val y_val : R) (item : string * option string)
    (items : dict) (m : pyfloat) (b : option string) :
  map_items train_df ideal_df x_val y_val (item :: items) m b =
  (ev <- item_eval train_df ideal_df x_val y_val item ;;
   if fle (Finite (fst ev)) (snd ev)
   then if flt (Finite (fst ev)) m
        then map_items train_df ideal_df x_val y_val items
               (Finite (fst ev)) (snd item)
        else map_items train_df ideal_df x_val y_val items m b
   else map_items train_df ideal_df x_val y_val items m b).
Proof.
  destruct item as [train_col ideal_col].
  unfold item_eval. cbn [map_items fst snd].
  destruct (loc_first ideal_df x_val ideal_col); cbn [bind]; [|reflexivity].
  destruct (getitem train_df train_col); cbn [bind]; [|reflexivity].
  destruct (match ideal_col with
            | Some c => getitem ideal_df c
            | None => Raise KeyError
            end); reflexivity.
Qed.

(** When every entry can be evaluated the loop is [first_min] over the
    deviations, admissible where the threshold is met. *)
Lemma map_items_first_min (x_val y_val : R) (items : dict)
    (evs : list (R * pyfloat)) :
  Forall2 (fun item ev =>
             item_eval train_df ideal_df x_val y_val item = Ok ev)
          items evs ->
  forall m b,
    map_items train_df ideal_df x_val y_val items m b =
    Ok (first_min
          (map (fun p => (qualifies (snd p), fst (snd p), snd (fst p)))
               (combine items evs)) m b).
Proof.
  induction 1 as [|item ev items evs Hev _ IH]; intros m b.
  - reflexivity.
  - rewrite map_items_cons, Hev. cbn [bind combine map first_min fst snd].
    unfold qualifies.
    destruct (fle (Finite (fst ev)) (snd ev)); [|apply IH].
    destruct (flt (Finite (fst ev)) m); apply IH.
Qed.

(** A loop that finishes has evaluated every entry. *)
Lemma map_items_ok_inv (x_val y_val : R) (items : dict) :
  forall m b r,
    map_items train_df ideal_df x_val y_val items m b = Ok r ->
    exists evs,
      Forall2 (fun item ev =>
                 item_eval train_df ideal_df x_val y_val item = Ok ev)
              items evs.
Proof.
  induction items as [|item items IH]; intros m b r H.
  - exists []. constructor.
  - rewrite map_items_cons in H.
    destruct (item_eval train_df ideal_df x_val y_val item) as [ev|e] eqn:E;
      cbn [bind] in H; [|discriminate].
    assert (exists m' b', map_items train_df ideal_df x_val y_val items m' b'
                          = Ok r) as (m' & b' & H').
    { destruct (fle (Finite (fst ev)) (snd ev)); [|eauto].
      destruct (flt (Finite (fst ev)) m); eauto. }
    destruct (IH _ _ _ H') as [evs Hevs].
    exists (ev :: evs). constructor; assumption.
Qed.

Lemma nth_error_items_evs (items : dict) (evs : list (R * pyfloat))
    (k : nat) (q : bool) (v : R) (b : option string) :
  length items = length evs ->
  nth_error (map (fun p => (qualifies (snd p), fst (snd p), snd (fst p)))
                 (combine items evs)) k = Some (q, v, b) <->
  exists item thr,
    nth_error items k = Some item /\ nth_error evs k = Some (v, thr) /\
    q = fle (Finite v) thr /\ b = snd item.
Proof.
  revert evs k; induction items as [|item items IH]; intros [|ev evs] k Hlen;
    simpl in Hlen; try discriminate.
  - split.
    + destruct k; discriminate.
    + intros (item & thr & H & _). destruct k; discriminate.
  - injection Hlen as Hlen. destruct k as [|k]; cbn [combine map nth_error].
    + unfold qualifies. cbn [fst snd]. split.
      * intros H; injection H as <- <- <-. exists item, (snd ev).
        destruct ev; auto.
      * intros (item' & thr & H1 & H2 & -> & ->).
        injection H1 as <-. injection H2 as ->. reflexivity.
    + apply IH. exact Hlen.
Qed.

End Mapping.

(** The outcome of the per-point loop from its initial state. *)
Lemma map_items_spec
    (train_df ideal_df : DataFrame) (x_val y_val : R)
    (items : dict) (evs : list (R * pyfloat)) :
  Forall2 (fun item ev =>
             item_eval train_df ideal_df x_val y_val item = Ok ev)
          items evs ->
  exists min_deviation best_map,
    map_items train_df ideal_df x_val y_val items PInf None =
      Ok (min_deviation, best_map) /\
    ((min_deviation = PInf /\ best_map = None /\
      forall k d thr, nth_error evs k = Some (d, thr) ->
                      fle (Finite d) thr = false)
     \/
     exists k item d thr,
       nth_error items k = Some item /\ nth_error evs k = Some (d, thr) /\
       fle (Finite d) thr = true /\
       min_deviation = Finite d /\ best_map = snd item /\
       forall k' d' thr',
         nth_error evs k' = Some (d', thr') ->
         fle (Finite d') thr' = true ->
         d <= d' /\ ((k' < k)%nat -> d < d')).
Proof.
  intros Hev.
  pose proof (Forall2_length Hev) as Hlen.
  rewrite (map_items_first_min _ _ _ _ _ _ Hev).
  set (cs := map _ (combine items evs)).
  destruct (first_min_spec cs None)
    as [[Heq Hnone] | (k & v & b & Heq & Hnth & Hmin)].
  - exists PInf, None. split; [rewrite Heq; reflexivity|]. left.
    split; [reflexivity|]. split; [reflexivity|].
    intros k d thr Hk.
    destruct (fle (Finite d) thr) eqn:E; [|reflexivity].
    exfalso.
    assert (Hlt : (k < length items)%nat).
    { rewrite Hlen. apply nth_error_Some. congruence. }
    destruct (nth_error items k) as [item|] eqn:Ei;
      [|apply nth_error_None in Ei; lia].
    apply (Hnone k d (snd item)). unfold cs.
    apply (nth_error_items_evs items evs k true d (snd item) Hlen).
    exists item, thr. auto.
  - exists (Finite v), b. split; [rewrite Heq; reflexivity|]. right.
    apply (nth_error_items_evs items evs k true v b Hlen) in Hnth.
    destruct Hnth as (item & thr & Hi & He & Hq & Hb).
    exists k, item, v, thr. repeat split; auto.
    + destruct (Hmin k' d' (match nth_error items k' with
                            | Some it => snd it | None => None end))
        as [H1 _]; [|exact H1].
      apply (nth_error_items_evs items evs k' true d' _ Hlen).
      assert (Hlt : (k' < length items)%nat).
      { rewrite Hlen. apply nth_error_Some. congruence. }
      destruct (nth_error items k') as [it|] eqn:Ei;
        [|apply nth_error_None in Ei; lia].
      exists it, thr'. auto.
    + destruct (Hmin k' d' (match nth_error items k' with
                            | Some it => snd it | None => None end))
        as [_ H2]; [|exact H2].
      apply (nth_error_items_evs items evs k' true d' _ Hlen).
      assert (Hlt : (k' < length items)%nat).
      { rewrite Hlen. apply nth_error_Some. congruence. }
      destruct (nth_error items k') as [it|] eqn:Ei;
        [|apply nth_error_None in Ei; lia].
      exists it, thr'. auto.
Qed.

(** * Selections with a stored threshold *)

Section Precomputed.

Variables train_df ideal_df : DataFrame.

Lemma getitem_cases (df : DataFrame) (name : string) :
  getitem df name = Raise KeyError \/ exists s, getitem df name = Ok s.
Proof. unfold getitem. destruct (df_col df name); eauto. Qed.

Lemma getitem_ycol_of (df : DataFrame) (j : nat) (s : Series) :
  getitem df (ycol j) = Ok s -> getitem df (ycol j) = Ok (ycol_of df j).
Proof.
  unfold getitem, ycol_of. destruct (df_col df (ycol j)); congruence.
Qed.

(** A scan over at least one label either stops on a missing column or
    finds every column it asks for. *)
Lemma scan_ideals_cases (train_col : string) (js : list nat) :
  js <> [] ->
  forall m b,
    scan_ideals train_df ideal_df train_col js m b = Raise KeyError \/
    (exists train_y,
        getitem train_df train_col = Ok train_y /\
        forall j, In j js ->
                  getitem ideal_df (ycol j) = Ok (ycol_of ideal_df j)).
Proof.
  induction js as [|j js IH]; [congruence|]. intros _ m b.
  cbn [scan_ideals].
  destruct (getitem_cases train_df train_col) as [E | [train_y E]];
    rewrite E; cbn [bind]; [left; reflexivity|].
  destruct (getitem_cases ideal_df (ycol j)) as [Ej | [ideal_y Ej]];
    rewrite Ej; cbn [bind]; [left; reflexivity|].
  destruct js as [|j' js].
  - right. exists train_y. split; [reflexivity|].
    intros j1 [<-|[]]. eapply getitem_ycol_of; eauto.
  - assert (Hne : j' :: js <> []) by discriminate.
    destruct (flt (MathEngine.calculate_least_squares train_y ideal_y) m).
    + destruct (IH Hne (MathEngine.calculate_least_squares train_y ideal_y)
                  (Some (ycol j))) as [H | (ty & Ht & Hall)];
        [left; exact H | right].
      exists train_y. split; [reflexivity|].
      intros j1 [<-|Hin]; [eapply getitem_ycol_of; eauto | auto].
    + destruct (IH Hne m b) as [H | (ty & Ht & Hall)];
        [left; exact H | right].
      exists train_y. split; [reflexivity|].
      intros j1 [<-|Hin]; [eapply getitem_ycol_of; eauto | auto].
Qed.

(** The scan of one training column and the Selection built from it
    fail together, or the Selection names the scan's result and stores
    the threshold of the two columns. *)
Lemma select_one_cases (train_col : string) :
  (scan_ideals train_df ideal_df train_col (range 1 51) PInf None =
     Raise KeyError /\
   Spec.select_one train_df ideal_df train_col = Raise KeyError) \/
  (exists j0 train_y,
      getitem train_df train_col = Ok train_y /\
      (forall j, (1 <= j <= 50)%nat ->
                 getitem ideal_df (ycol j) = Ok (ycol_of ideal_df j)) /\
      first_minimizer train_y (ycol_of ideal_df) j0 /\
      scan_ideals train_df ideal_df train_col (range 1 51) PInf None =
        Ok (Finite (sum_sq train_y (ycol_of ideal_df j0)), Some (ycol j0)) /\
      Spec.select_one train_df ideal_df train_col =
        Ok (Spec.mkSelection train_col (Some (ycol j0))
              (Finite (sum_sq train_y (ycol_of ideal_df j0)))
              (MathEngine.get_threshold train_y (ycol_of ideal_df j0)))).
Proof.
  assert (Hne : range 1 51 <> []) by discriminate.
  destruct (scan_ideals_cases train_col (range 1 51) Hne PInf None)
    as [E | (train_y & Ht & Hall)].
  - left. split; [exact E|]. unfold Spec.select_one. rewrite E. reflexivity.
  - right.
    assert (Hc : forall j, (1 <= j <= 50)%nat ->
                   getitem ideal_df (ycol j) = Ok (ycol_of ideal_df j)).
    { intros j Hj. apply Hall. unfold range. apply in_seq. lia. }
    destruct (scan_ideals_argmin train_df ideal_df train_col train_y
                (ycol_of ideal_df) Ht Hc) as (j0 & E & Hmin).
    exists j0, train_y.
    split; [exact Ht|]. split; [exact Hc|]. split; [exact Hmin|].
    split; [exact E|].
    unfold Spec.select_one. rewrite E. cbn [bind snd fst]. rewrite Ht.
    cbn [bind]. rewrite Hc by apply Hmin. reflexivity.
Qed.

(** The four selections: both pipelines fail together, or the source's
    dict is the list of Selections without scores and thresholds. *)
Lemma select_cases :
  (Spec.select train_df ideal_df (range 1 5) = Raise KeyError /\
   select_ideals train_df ideal_df (range 1 5) [] = Raise KeyError) \/
  (exists selections,
      Spec.select train_df ideal_df (range 1 5) = Ok selections /\
      select_ideals train_df ideal_df (range 1 5) [] =
        Ok (map Spec.as_item selections) /\
      length selections = 4%nat /\
      Forall (selection_ok train_df ideal_df) selections).
Proof.
  change (range 1 5) with [1; 2; 3; 4]%nat.
  cbn [Spec.select select_ideals].
  destruct (select_one_cases (ycol 1))
    as [[E1 S1] | (j1 & t1 & T1 & C1 & M1 & E1 & S1)];
    rewrite E1, S1; cbn [bind snd]; [left; split; reflexivity|].
  destruct (select_one_cases (ycol 2))
    as [[E2 S2] | (j2 & t2 & T2 & _ & M2 & E2 & S2)];
    rewrite E2, S2; cbn [bind snd]; [left; split; reflexivity|].
  destruct (select_one_cases (ycol 3))
    as [[E3 S3] | (j3 & t3 & T3 & _ & M3 & E3 & S3)];
    rewrite E3, S3; cbn [bind snd]; [left; split; reflexivity|].
  destruct (select_one_cases (ycol 4))
    as [[E4 S4] | (j4 & t4 & T4 & _ & M4 & E4 & S4)];
    rewrite E4, S4; cbn [bind snd]; [left; split; reflexivity|].
  right. eexists. split; [reflexivity|]. split; [reflexivity|].
  split; [reflexivity|].
  repeat constructor.
  - exists j1, t1, (ycol_of ideal_df j1). cbn.
    repeat split; auto; try apply M1. apply C1, M1.
  - exists j2, t2, (ycol_of ideal_df j2). cbn.
    repeat split; auto; try apply M2. apply C1, M2.
  - exists j3, t3, (ycol_of ideal_df j3). cbn.
    repeat split; auto; try apply M3. apply C1, M3.
  - exists j4, t4, (ycol_of ideal_df j4). cbn.
    repeat split; auto; try apply M4. apply C1, M4.
Qed.

End Precomputed.

Section Refinement.

Variables train_df ideal_df : DataFrame.




End Refinement.


(** * Looking up the grid *)

Section Lookup.

Variable ideal_df : DataFrame.


Lemma filter_grid_present (x_val : R) (xs col : Series) :
  In x_val xs -> length col = length xs ->
  exists p rest,
    filter (fun p : R * R => if Req_dec_T (fst p) x_val then true else false)
           (combine xs col) = p :: rest.
Proof.
  revert col; induction xs as [|u xs IH]; intros [|v col] Hin Hlen;
    simpl in Hlen; try discriminate; try contradiction.
  cbn [combine filter fst].
  destruct (Req_dec_T u x_val) as [->|Hne]; [eauto|].
  destruct Hin as [->|Hin]; [congruence|].
  apply IH; [exact Hin | congruence].
Qed.

(** With the grid and the column at hand, the lookup yields a value or
    an [IndexError]. *)
Lemma loc_first_cases (x_val : R) (name : string) (xs col : Series) :
  getitem ideal_df "x" = Ok xs ->
  getitem ideal_df name = Ok col ->
  loc_first ideal_df x_val (Some name) = Raise IndexError \/
  exists v, loc_first ideal_df x_val (Some name) = Ok v.
Proof.
  intros Hx Hc. unfold loc_first. rewrite Hx, Hc. cbn [bind].
  destruct (filter _ _); eauto.
Qed.


Lemma loc_first_present (x_val : R) (name : string) (xs col : Series) :
  getitem ideal_df "x" = Ok xs ->
  getitem ideal_df name = Ok col ->
  In x_val xs -> length col = length xs ->
  exists v, loc_first ideal_df x_val (Some name) = Ok v.
Proof.
  intros Hx Hc Hin Hlen. unfold loc_first. rewrite Hx, Hc. cbn [bind].
  destruct (filter_grid_present x_val xs col Hin Hlen) as (p & rest & E).
  rewrite E. eauto.
Qed.

End Lookup.

(** * Outcomes of the per-point loop *)

Lemma Forall2_nth_error_l (A C : Type) (P : A -> C -> Prop)
    (l : list A) (l' : list C) (k : nat) (a : A) :
  Forall2 P l l' -> nth_error l k = Some a ->
  exists c, nth_error l' k = Some c /\ P a c.
Proof.
  intros H; revert k; induction H as [|u v l l' Huv _ IH]; intros [|k] Hk;
    cbn [nth_error] in *; try discriminate.
  - injection Hk as <-. eauto.
  - apply IH. exact Hk.
Qed.

Lemma Forall2_nth_error_r (A C : Type) (P : A -> C -> Prop)
    (l : list A) (l' : list C) (k : nat) (c : C) :
  Forall2 P l l' -> nth_error l' k = Some c ->
  exists a, nth_error l k = Some a /\ P a c.
Proof.
  intros H; revert k; induction H as [|u v l l' Huv _ IH]; intros [|k] Hk;
    cbn [nth_error] in *; try discriminate.
  - injection Hk as <-. eauto.
  - apply IH. exact Hk.
Qed.

Section Outcome.

Variables train_df ideal_df : DataFrame.

(** The final state of the loop, in terms of the entries themselves. *)
Lemma map_items_outcome (x_val y_val : R) (items : dict)
    (m : pyfloat) (b : option string) :
  map_items train_df ideal_df x_val y_val items PInf None = Ok (m, b) ->
  (m = PInf /\ b = None /\
   forall item d thr,
     In item items ->
     item_eval train_df ideal_df x_val y_val item = Ok (d, thr) ->
     fle (Finite d) thr = false) \/
  (exists item d thr,
      In item items /\
      item_eval train_df ideal_df x_val y_val item = Ok (d, thr) /\
      fle (Finite d) thr = true /\ m = Finite d /\ b = snd item /\
      forall item' d' thr',
        In item' items ->
        item_eval train_df ideal_df x_val y_val item' = Ok (d', thr') ->
        fle (Finite d') thr' = true -> d <= d').
Proof.
  intros H.
  destruct (map_items_ok_inv _ _ _ _ _ _ _ _ H) as [evs Hev].
  destruct (map_items_spec _ _ _ _ _ _ Hev)
    as (m' & b' & E & [(-> & -> & Hnone) | (k & item & d & thr & Hi & He & Hq & -> & -> & Hmin)]);
    rewrite H in E; injection E as -> ->.
  - left. split; [reflexivity|]. split; [reflexivity|].
    intros item d thr Hin Hitem.
    destruct (In_nth_error _ _ Hin) as [k Hk].
    destruct (Forall2_nth_error_l _ _ _ _ _ _ _ Hev Hk) as (ev & Hk' & Hev').
    rewrite Hitem in Hev'. injection Hev' as <-. eapply Hnone; eauto.
  - right. exists item, d, thr.
    destruct (Forall2_nth_error_l _ _ _ _ _ _ _ Hev Hi) as (ev & Hk' & Hev').
    rewrite He in Hk'. injection Hk' as <-.
    split; [eapply nth_error_In; eauto|]. split; [exact Hev'|].
    split; [exact Hq|]. split; [reflexivity|]. split; [reflexivity|].
    intros item' d' thr' Hin Hitem Hq'.
    destruct (In_nth_error _ _ Hin) as [k' Hk].
    destruct (Forall2_nth_error_l _ _ _ _ _ _ _ Hev Hk) as (ev' & Hk2 & Hev2).
    rewrite Hitem in Hev2. injection Hev2 as <-.
    apply (Hmin k' d' thr' Hk2 Hq').
Qed.

(** What one pass computes for a Selection with the right threshold. *)
Lemma item_eval_selection (s : Spec.Selection) (x_val y_val : R)
    (xs : Series) :
  selection_ok train_df ideal_df s ->
  getitem ideal_df "x" = Ok xs ->
  item_eval train_df ideal_df x_val y_val (Spec.as_item s) = Raise IndexError
  \/
  exists v,
    loc_first ideal_df x_val (Spec.candidate_label s) = Ok v /\
    item_eval train_df ideal_df x_val y_val (Spec.as_item s) =
      Ok (Rabs (y_val - v), Spec.threshold s).
Proof.
  intros (j0 & ty & iy & _ & Hc & Ht & Hi & Hthr) Hx.
  unfold item_eval, Spec.as_item. cbn [fst snd]. rewrite Hc.
  destruct (loc_first_cases ideal_df x_val (ycol j0) xs iy Hx Hi)
    as [E | [v E]]; rewrite E; cbn [bind]; [left; reflexivity|].
  right. exists v. split; [reflexivity|].
  rewrite Ht. cbn [bind]. rewrite Hi. cbn [bind]. rewrite Hthr. reflexivity.
Qed.


Lemma item_eval_present (s : Spec.Selection) (x_val y_val : R)
    (xs : Series) (c : nat -> Series) :
  selection_ok train_df ideal_df s ->
  getitem ideal_df "x" = Ok xs ->
  (forall j, (1 <= j <= 50)%nat -> getitem ideal_df (ycol j) = Ok (c j)) ->
  (forall j, (1 <= j <= 50)%nat -> length (c j) = length xs) ->
  In x_val xs ->
  exists ev, item_eval train_df ideal_df x_val y_val (Spec.as_item s) = Ok ev.
Proof.
  intros Hs Hx Hc Hlen Hin.
  destruct (item_eval_selection s x_val y_val xs Hs Hx) as [E | (v & _ & E)];
    [|eauto].
  exfalso. destruct Hs as (j0 & ty & iy & Hj & Hcand & Ht & Hi & Hthr).
  assert (Hl : length iy = length xs).
  { rewrite (Hc j0 Hj) in Hi. injection Hi as <-. apply Hlen, Hj. }
  destruct (loc_first_present ideal_df x_val (ycol j0) xs iy Hx Hi Hin Hl)
    as [v Hv].
  unfold item_eval, Spec.as_item in E. cbn [fst snd] in E.
  rewrite Hcand, Hv in E. cbn [bind] in E. rewrite Ht in E. cbn [bind] in E.
  rewrite Hi in E. discriminate.
Qed.

End Outcome.

(** * Outcomes of the loop over the test rows *)

Section Rows.

Variables train_df ideal_df : DataFrame.
Variable xs : Series.

Hypothesis Hx : getitem ideal_df "x" = Ok xs.

Lemma map_items_cases (selections : list Spec.Selection) (x_val y_val : R) :
  Forall (selection_ok train_df ideal_df) selections ->
  forall m b,
    map_items train_df ideal_df x_val y_val
      (map Spec.as_item selections) m b = Raise IndexError \/
    exists r, map_items train_df ideal_df x_val y_val
                (map Spec.as_item selections) m b = Ok r.
Proof.
  induction 1 as [|s sels Hs _ IH]; intros m b.
  - right. cbn. eauto.
  - cbn [map]. rewrite map_items_cons.
    destruct (item_eval_selection train_df ideal_df s x_val y_val xs Hs Hx)
      as [E | (v & _ & E)]; rewrite E; cbn [bind]; [left; reflexivity|].
    destruct (fle _ _); [|apply IH].
    destruct (flt _ _); apply IH.
Qed.


Lemma map_items_total (selections : list Spec.Selection) (c : nat -> Series)
    (x_val y_val : R) :
  Forall (selection_ok train_df ideal_df) selections ->
  (forall j, (1 <= j <= 50)%nat -> getitem ideal_df (ycol j) = Ok (c j)) ->
  (forall j, (1 <= j <= 50)%nat -> length (c j) = length xs) ->
  In x_val xs ->
  forall m b,
    exists r, map_items train_df ideal_df x_val y_val
                (map Spec.as_item selections) m b = Ok r.
Proof.
  intros Hok Hc Hlen Hin.
  induction Hok as [|s sels Hs _ IH]; intros m b.
  - cbn. eauto.
  - cbn [map]. rewrite map_items_cons.
    destruct (item_eval_present train_df ideal_df s x_val y_val xs c
                Hs Hx Hc Hlen Hin) as [ev E].
    rewrite E. cbn [bind].
    destruct (fle _ _); [|apply IH].
    destruct (flt _ _); apply IH.
Qed.

Lemma map_row_cases (selections : list Spec.Selection) (row : TestRow) :
  Forall (selection_ok train_df ideal_df) selections ->
  map_row train_df ideal_df (map Spec.as_item selections) row
  = Raise IndexError \/
  exists new,
    map_row train_df ideal_df (map Spec.as_item selections) row = Ok new.
Proof.
  intros Hok. unfold map_row. cbv zeta.
  destruct (map_items_cases selections (fst row) (snd row) Hok PInf None)
    as [E | [r E]]; rewrite E; cbn [bind]; [left; reflexivity|].
  right. destruct (truthy (snd r)); eauto.
Qed.


End Rows.

Lemma map_rows_total (train_df ideal_df : DataFrame) (sel : dict)
    (rows : list TestRow) :
  (forall row, In row rows ->
     exists new, map_row train_df ideal_df sel row = Ok new) ->
  forall acc,
    exists res, map_rows train_df ideal_df sel rows acc = Ok res.
Proof.
  induction rows as [|row rows IH]; intros Hall acc.
  - cbn. eauto.
  - cbn [map_rows]. destruct (Hall row) as [new E]; [left; reflexivity|].
    rewrite E. cbn [bind]. apply IH. intros r Hr. apply Hall. right. exact Hr.
Qed.

(** A finished loop over the rows has appended, in order, what each row
    contributes. *)
Lemma map_rows_inv (train_df ideal_df : DataFrame) (sel : dict)
    (rows : list TestRow) :
  forall acc res,
    map_rows train_df ideal_df sel rows acc = Ok res ->
    exists news,
      Forall2 (fun row new => map_row train_df ideal_df sel row = Ok new)
              rows news /\
      res = (acc ++ concat news)%list.
Proof.
  induction rows as [|row rows IH]; intros acc res H.
  - cbn in H. injection H as <-. exists []. split; [constructor|].
    cbn. rewrite app_nil_r. reflexivity.
  - cbn [map_rows] in H.
    destruct (map_row train_df ideal_df sel row) as [new|e] eqn:E;
      cbn [bind] in H; [|discriminate].
    destruct (IH _ _ H) as (news & Hall & ->).
    exists (new :: news). split; [constructor; assumption|].
    cbn [concat]. rewrite app_assoc. reflexivity.
Qed.

(** * The whole run *)

Section Run.

Variables train_df ideal_df : DataFrame.

(** With all columns present the selection succeeds. *)
Lemma select_ideals_total (t c : nat -> Series) :
  (forall i, (1 <= i <= 4)%nat -> getitem train_df (ycol i) = Ok (t i)) ->
  (forall j, (1 <= j <= 50)%nat -> getitem ideal_df (ycol j) = Ok (c j)) ->
  exists selections,
    select_ideals train_df ideal_df (range 1 5) [] =
      Ok (map Spec.as_item selections) /\
    length selections = 4%nat /\
    Forall (selection_ok train_df ideal_df) selections.
Proof.
  intros Ht Hc.
  destruct (select_ideals_argmin train_df ideal_df t c Ht Hc)
    as (j1 & j2 & j3 & j4 & E & _).
  destruct (select_cases train_df ideal_df)
    as [[_ E'] | (sels & _ & E' & Hlen & Hok)]; [congruence|].
  exists sels. auto.
Qed.

(** A finished selection is the image of four good Selections. *)
Lemma select_ideals_inv (sel : dict) :
  select_ideals train_df ideal_df (range 1 5) [] = Ok sel ->
  exists selections,
    sel = map Spec.as_item selections /\
    length selections = 4%nat /\
    Forall (selection_ok train_df ideal_df) selections.
Proof.
  intros E.
  destruct (select_cases train_df ideal_df)
    as [[_ E'] | (sels & _ & E' & Hlen & Hok)]; [congruence|].
  exists sels. split; [congruence | auto].
Qed.

(** What a row contributes to [test_results_list]. *)
Lemma map_row_outcome (selections : list Spec.Selection) (row : TestRow)
    (new : list ResultRow) :
  Forall (selection_ok train_df ideal_df) selections ->
  map_row train_df ideal_df (map Spec.as_item selections) row = Ok new ->
  (new = [] /\
   forall item d thr,
     In item (map Spec.as_item selections) ->
     item_eval train_df ideal_df (fst row) (snd row) item = Ok (d, thr) ->
     fle (Finite d) thr = false) \/
  (exists item name d thr,
      In item (map Spec.as_item selections) /\
      snd item = Some name /\
      item_eval train_df ideal_df (fst row) (snd row) item = Ok (d, thr) /\
      fle (Finite d) thr = true /\
      new = [mkResultRow (fst row) (snd row) (Finite d) name] /\
      forall item' d' thr',
        In item' (map Spec.as_item selections) ->
        item_eval train_df ideal_df (fst row) (snd row) item' = Ok (d', thr') ->
        fle (Finite d') thr' = true -> d <= d').
Proof.
  intros Hok H. unfold map_row in H. cbv zeta in H.
  destruct (map_items _ _ _ _ _ _ _) as [[m b]|e] eqn:E; cbn [bind] in H;
    [|discriminate].
  destruct (map_items_outcome _ _ _ _ _ _ _ E)
    as [(-> & -> & Hnone) | (item & d & thr & Hin & He & Hq & -> & -> & Hmin)].
  - left. cbn in H. injection H as <-. auto.
  - right.
    destruct (proj1 (in_map_iff _ _ _) Hin) as (s & <- & Hs).
    destruct (proj1 (Forall_forall _ _) Hok s Hs)
      as (j0 & ty & iy & _ & Hc & _).
    cbn [Spec.as_item fst snd] in H. rewrite Hc, ycol_nonempty in H.
    injection H as <-.
    exists (Spec.as_item s), (ycol j0), d, thr.
    repeat split; auto.
Qed.

End Run.

(** * The sample tables *)

Lemma first_minimizer_const (train_y c0 : Series) (j0 : nat) :
  first_minimizer train_y (fun _ => c0) j0 -> j0 = 1%nat.
Proof.
  intros [Hr Hm].
  destruct (Nat.eq_dec j0 1) as [|Hne]; [assumption|].
  destruct (Hm 1%nat) as [_ H]; [lia|].
  assert (sum_sq train_y c0 < sum_sq train_y c0) by (apply H; lia). lra.
Qed.

(** With fifty equal candidates every training column keeps the first
    one, whatever the lengths of the columns. *)
Lemma select_ideals_const (xs xs' t0 c0 : Series) :
  select_ideals (mk_train xs (fun _ => t0)) (mk_ideal xs' (fun _ => c0))
    (range 1 5) [] = Ok ex_selected.
Proof.
  destruct (select_ideals_argmin
              (mk_train xs (fun _ => t0)) (mk_ideal xs' (fun _ => c0))
              (fun _ => t0) (fun _ => c0))
    as (j1 & j2 & j3 & j4 & E & M1 & M2 & M3 & M4).
  - intros i Hi. apply (getitem_mk_train xs (fun _ => t0) i Hi).
  - intros j Hj. apply (getitem_mk_ideal xs' (fun _ => c0) j Hj).
  - apply first_minimizer_const in M1, M2, M3, M4. subst. exact E.
Qed.

Lemma flt_irrefl (a : R) : flt (Finite a) (Finite a) = false.
Proof. apply flt_Finite_false. lra. Qed.

Section ConstantTables.

(** Tables all of whose training columns are [t0] and all of whose ideal
    columns are [c0]. *)
Variables txs xs t0 c0 : Series.

Lemma const_item_eval (i : nat) (x_val y_val v : R) :
  (1 <= i <= 4)%nat ->
  loc_first (mk_ideal xs (fun _ => c0)) x_val (Some "y1") = Ok v ->
  item_eval (mk_train txs (fun _ => t0)) (mk_ideal xs (fun _ => c0))
    x_val y_val (ycol i, Some "y1") =
  Ok (Rabs (y_val - v), get_threshold t0 c0).
Proof.
  intros Hi Hloc. unfold item_eval. cbn [fst snd]. rewrite Hloc. cbn [bind].
  rewrite (getitem_mk_train txs (fun _ => t0) i Hi).
  rewrite getitem_mk_ideal_y1. reflexivity.
Qed.

Lemma const_items_eval (x_val y_val v : R) :
  loc_first (mk_ideal xs (fun _ => c0)) x_val (Some "y1") = Ok v ->
  Forall2 (fun item ev =>
             item_eval (mk_train txs (fun _ => t0))
                       (mk_ideal xs (fun _ => c0)) x_val y_val item = Ok ev)
          ex_selected
          (map (fun _ => (Rabs (y_val - v), get_threshold t0 c0)) ex_selected).
Proof.
  intros Hloc. unfold ex_selected. cbn [map].
  repeat constructor.
  - apply (const_item_eval 1); [lia | exact Hloc].
  - apply (const_item_eval 2); [lia | exact Hloc].
  - apply (const_item_eval 3); [lia | exact Hloc].
  - apply (const_item_eval 4); [lia | exact Hloc].
Qed.

(** A point within the threshold is assigned to the first selection. *)
Lemma const_map_row_assigned (x_val y_val v thr : R) :
  loc_first (mk_ideal xs (fun _ => c0)) x_val (Some "y1") = Ok v ->
  get_threshold t0 c0 = Finite thr ->
  Rabs (y_val - v) <= thr ->
  map_row (mk_train txs (fun _ => t0)) (mk_ideal xs (fun _ => c0))
    ex_selected (x_val, y_val) =
  Ok [mkResultRow x_val y_val (Finite (Rabs (y_val - v))) "y1"].
Proof.
  intros Hloc Hthr Hle. unfold map_row. cbn [fst snd].
  rewrite (map_items_first_min _ _ _ _ _ _ (const_items_eval _ y_val _ Hloc)).
  rewrite Hthr.
  cbn [ex_selected combine map fst snd first_min].
  replace (qualifies (Rabs (y_val - v), Finite thr)) with true
    by (symmetry; unfold qualifies; cbn [fst snd]; apply fle_Finite; lra).
  rewrite flt_irrefl. reflexivity.
Qed.

(** A point beyond the threshold contributes nothing. *)
Lemma const_map_row_unassigned (x_val y_val v thr : R) :
  loc_first (mk_ideal xs (fun _ => c0)) x_val (Some "y1") = Ok v ->
  get_threshold t0 c0 = Finite thr ->
  thr < Rabs (y_val - v) ->
  map_row (mk_train txs (fun _ => t0)) (mk_ideal xs (fun _ => c0))
    ex_selected (x_val, y_val) = Ok [].
Proof.
  intros Hloc Hthr Hlt. unfold map_row. cbn [fst snd].
  rewrite (map_items_first_min _ _ _ _ _ _ (const_items_eval _ y_val _ Hloc)).
  rewrite Hthr.
  cbn [ex_selected combine map fst snd first_min].
  replace (qualifies (Rabs (y_val - v), Finite thr)) with false
    by (symmetry; unfold qualifies; cbn [fst snd];
        apply fle_Finite_false; lra).
  reflexivity.
Qed.

End ConstantTables.

Lemma loc_first_head (u v : R) (xs col : Series) :
  loc_first (mk_ideal (u :: xs) (fun _ => v :: col)) u (Some "y1") = Ok v.
Proof.
  unfold loc_first. rewrite getitem_mk_ideal_x. cbn [bind].
  rewrite getitem_mk_ideal_y1.
  cbn [bind combine filter fst snd].
  destruct (Req_dec_T u u) as [_|H]; [reflexivity | congruence].
Qed.

Lemma loc_first_second (u u' v v' : R) (xs col : Series) :
  u <> u' ->
  loc_first (mk_ideal (u :: u' :: xs) (fun _ => v :: v' :: col)) u'
    (Some "y1") = Ok v'.
Proof.
  intros Hne. unfold loc_first. rewrite getitem_mk_ideal_x. cbn [bind].
  rewrite getitem_mk_ideal_y1.
  cbn [bind combine filter fst snd].
  destruct (Req_dec_T u u') as [H|_]; [contradiction|].
  destruct (Req_dec_T u' u') as [_|H]; [reflexivity | congruence].
Qed.

Lemma ex_threshold : get_threshold [0; 1] [0; 1] = Finite 0.
Proof.
  rewrite get_threshold_real, max_abs_refl by discriminate.
  rewrite Rmult_0_l. reflexivity.
Qed.

(** The threshold of a two-row column against a one-row column is taken
    over the one shared row. *)
Lemma ex_threshold_unequal : get_threshold [0; 1] [0] = Finite 0.
Proof.
  rewrite get_threshold_real. cbn [max_abs].
  rewrite Rminus_diag, Rabs_R0, Rmult_0_l. reflexivity.
Qed.

(** The point on the curve is assigned with deviation 0. *)
Lemma ex_map_row_on_curve :
  map_row ex_train ex_ideal ex_selected row_on_curve =
  Ok [mkResultRow 0 0 (Finite 0) "y1"].
Proof.
  unfold ex_train, ex_ideal, row_on_curve.
  rewrite (const_map_row_assigned [0; 1] [0; 1] [0; 1] [0; 1] 0 0 0 0).
  - rewrite Rminus_diag, Rabs_R0. reflexivity.
  - apply loc_first_head.
  - apply ex_threshold.
  - rewrite Rminus_diag, Rabs_R0. lra.
Qed.

(** The point far off the curve is left out. *)
Lemma ex_map_row_far_off :
  map_row ex_train ex_ideal ex_selected row_far_off = Ok [].
Proof.
  unfold ex_train, ex_ideal, row_far_off.
  apply (const_map_row_unassigned [0; 1] [0; 1] [0; 1] [0; 1] 1 5 1 0).
  - apply loc_first_second. lra.
  - apply ex_threshold.
  - rewrite Rabs_pos_eq; lra.
Qed.


Lemma ex_tables_ok :
  tables_ok ex_train ex_ideal [0; 1] (fun _ => [0; 1]) (fun _ => [0; 1]).
Proof.
  repeat split.
  - intros i Hi. apply (getitem_mk_train [0; 1] (fun _ => [0; 1]) i Hi).
  - intros j Hj. apply (getitem_mk_ideal [0; 1] (fun _ => [0; 1]) j Hj).
Qed.

(** The run on the two rows that lie on the grid. *)
Lemma ex_run :
  run_assignment ex_train ex_ideal [row_on_curve; row_far_off] =
  Ok (ex_selected, [mkResultRow 0 0 (Finite 0) "y1"]).
Proof.
  unfold run_assignment, run_body, ex_train, ex_ideal.
  rewrite select_ideals_const. cbn [bind map_rows].
  fold ex_train ex_ideal.
  rewrite ex_map_row_on_curve. cbn [bind].
  rewrite ex_map_row_far_off. reflexivity.
Qed.

(** The run on training columns of two rows against ideal columns of
    one row. *)
Lemma ex_run_unequal :
  run_assignment (mk_train [0; 1] (fun _ => [0; 1]))
                 (mk_ideal [0] (fun _ => [0])) [row_on_curve] =
  Ok (ex_selected, [mkResultRow 0 0 (Finite 0) "y1"]).
Proof.
  unfold run_assignment, run_body.
  rewrite select_ideals_const. cbn [bind map_rows]. unfold row_on_curve.
  rewrite (const_map_row_assigned [0; 1] [0] [0; 1] [0] 0 0 0 0).
  - rewrite Rminus_diag, Rabs_R0. reflexivity.
  - apply loc_first_head.
  - apply ex_threshold_unequal.
  - rewrite Rminus_diag, Rabs_R0. lra.
Qed.



(** * Failures of the run *)

(** Without candidate columns the first lookup of the scan fails and the
    [except] clause wraps the [KeyError]. *)
Lemma run_assignment_no_candidates (train_df ideal_df : DataFrame)
    (test_df : list TestRow) :
  (forall j, (1 <= j <= 50)%nat -> getitem ideal_df (ycol j) = Raise KeyError) ->
  run_assignment train_df ideal_df test_df =
  Raise (DataValidationError KeyError).
Proof.
  intros Hnone. unfold run_assignment, run_body.
  change (range 1 5) with [1; 2; 3; 4]%nat. cbn [select_ideals].
  change (range 1 51) with (1 :: seq 2 49)%nat.
  rewrite scan_ideals_keyerror by (apply Hnone; lia).
  reflexivity.
Qed.


(** On well-formed tables and test rows on the grid the run finishes. *)
Lemma run_assignment_total (train_df ideal_df : DataFrame)
    (xs : Series) (t c : nat -> Series) (test_df : list TestRow) :
  tables_ok train_df ideal_df xs t c ->
  (forall row, In row test_df -> In (fst row) xs) ->
  exists selections results,
    run_assignment train_df ideal_df test_df =
      Ok (map Spec.as_item selections, results) /\
    length selections = 4%nat /\
    Forall (selection_ok train_df ideal_df) selections.
Proof.
  intros (Ht & Hc & Hx & Hlen) Hgrid. unfold run_assignment, run_body.
  destruct (select_ideals_total train_df ideal_df t c Ht Hc)
    as (sels & E & Hl & Hok).
  rewrite E. cbn [bind].
  destruct (map_rows_total train_df ideal_df (map Spec.as_item sels) test_df)
    with (acc := @nil ResultRow) as [res Hres].
  - intros row Hrow. unfold map_row. cbv zeta.
    destruct (map_items_total train_df ideal_df xs Hx sels c
                (fst row) (snd row) Hok Hc Hlen (Hgrid row Hrow) PInf None)
      as [r Hr].
    rewrite Hr. cbn [bind]. destruct (truthy (snd r)); eauto.
  - rewrite Hres. cbn [bind]. exists sels, res. auto.
Qed.

(** A finished run: its selections and the rows contributed by each
    test row. *)
Lemma run_assignment_inv (train_df ideal_df : DataFrame)
    (test_df : list TestRow) (sel : dict) (results : list ResultRow) :
  run_assignment train_df ideal_df test_df = Ok (sel, results) ->
  exists selections news,
    sel = map Spec.as_item selections /\
    length selections = 4%nat /\
    Forall (selection_ok train_df ideal_df) selections /\
    Forall2 (fun row new => map_row train_df ideal_df sel row = Ok new)
            test_df news /\
    results = concat news.
Proof.
  unfold run_assignment, run_body. intros H.
  destruct (select_ideals train_df ideal_df (range 1 5) []) as [sel'|e] eqn:E;
    cbn [bind] in H; [|discriminate].
  destruct (map_rows train_df ideal_df sel' test_df []) as [res|e] eqn:E';
    cbn [bind] in H; [|discriminate].
  injection H as -> ->.
  destruct (select_ideals_inv train_df ideal_df sel E) as (sels & -> & Hl & Hok).
  destruct (map_rows_inv _ _ _ _ _ _ E') as (news & Hall & ->).
  exists sels, news. auto.
Qed.

(** * Selection *)

Section Float64Selection.

Variable np_sum : list PrimFloat.float -> PrimFloat.float.

Lemma float64_df_col_ycols (c : nat -> Float64.Series) (js : list nat)
    (j : nat) :
  In j js ->
  Float64.df_col (map (fun j => (ycol j, c j)) js) (ycol j) = Some (c j).
Proof.
  induction js as [|j' js IH]; intros Hin; [contradiction|].
  cbn [map Float64.df_col]. destruct (String.eqb (ycol j') (ycol j)) eqn:E.
  - apply String.eqb_eq, ycol_inj in E. subst; reflexivity.
  - destruct Hin as [->|Hin]; [|auto].
    rewrite String.eqb_refl in E. discriminate.
Qed.

Lemma float64_getitem_mk_table (xs : Float64.Series) (labels : list nat)
    (c : nat -> Float64.Series) (j : nat) :
  In j labels ->
  Float64.getitem (Float64.mk_table xs labels c) (ycol j) = Ok (c j).
Proof.
  intros Hj. unfold Float64.getitem, Float64.mk_table. cbn [Float64.df_col].
  rewrite ycol_not_x, float64_df_col_ycols; [reflexivity | exact Hj].
Qed.

(** While every score is [inf] the running minimum [float('inf')] is
    never replaced: [inf < inf] is false. *)
Lemma float64_scan_all_inf (train_df ideal_df : Float64.DataFrame)
    (train_col : string) (train_y : Float64.Series)
    (c : nat -> Float64.Series) (js : list nat) :
  Float64.getitem train_df train_col = Ok train_y ->
  (forall j, In j js -> Float64.getitem ideal_df (ycol j) = Ok (c j)) ->
  (forall j, In j js ->
     Float64.calculate_least_squares np_sum train_y (c j)
       = PrimFloat.infinity) ->
  forall b,
    Float64.scan_ideals np_sum train_df ideal_df train_col js
      PrimFloat.infinity b = Ok (PrimFloat.infinity, b).
Proof.
  intros Ht Hc Hs b. induction js as [|j js IH]; [reflexivity|].
  cbn [Float64.scan_ideals]. rewrite Ht. cbn [bind].
  rewrite (Hc j) by (left; reflexivity). cbn [bind].
  rewrite (Hs j) by (left; reflexivity).
  change (PrimFloat.ltb PrimFloat.infinity PrimFloat.infinity) with false.
  cbv iota.
  apply IH; intros; [apply Hc | apply Hs]; right; assumption.
Qed.

Hypothesis np_sum_inf : np_sum [PrimFloat.infinity] = PrimFloat.infinity.

Lemma float64_score_huge :
  Float64.calculate_least_squares np_sum [Float64.huge] [PrimFloat.zero]
    = PrimFloat.infinity.
Proof.
  unfold Float64.calculate_least_squares, Float64.series_sum.
  change (np_sum [PrimFloat.infinity] = PrimFloat.infinity).
  exact np_sum_inf.
Qed.

Lemma float64_scan_huge (i : nat) :
  (1 <= i <= 4)%nat ->
  Float64.scan_ideals np_sum Float64.ex_train_huge Float64.ex_ideal_zero
    (ycol i) (range 1 51) PrimFloat.infinity None
    = Ok (PrimFloat.infinity, None).
Proof.
  intros Hi.
  apply (float64_scan_all_inf _ _ _ [Float64.huge]
           (fun _ => [PrimFloat.zero])).
  - apply (float64_getitem_mk_table _ _ (fun _ => [Float64.huge])).
    unfold range. apply in_seq. lia.
  - intros j Hj.
    apply (float64_getitem_mk_table _ _ (fun _ => [PrimFloat.zero])).
    exact Hj.
  - intros j _. exact float64_score_huge.
Qed.

End Float64Selection.

(** C1 (failing input).  A training table whose four columns hold the
    value 1e200 and an ideal table whose fifty columns hold 0.0, on one
    grid point: in double arithmetic every squared difference overflows,
    every score is [inf], [inf < inf] is false, and the selection loop
    stores [None] for each training column instead of the first of the
    fifty tied candidates.  The grouping of the additions in [sum()]
    plays no part: the sum of the single value [inf] is [inf]. *)
Theorem huge_training_values_select_nothing
    (np_sum : list PrimFloat.float -> PrimFloat.float) :
  np_sum [PrimFloat.infinity] = PrimFloat.infinity ->
  Float64.calculate_least_squares np_sum [Float64.huge] [PrimFloat.zero]
    = PrimFloat.infinity /\
  PrimFloat.ltb PrimFloat.infinity PrimFloat.infinity = false /\
  Float64.select_ideals np_sum Float64.ex_train_huge Float64.ex_ideal_zero
    (range 1 5) []
    = Ok [("y1", None); ("y2", None); ("y3", None); ("y4", None)].
Proof.
  intros Hsum. split; [apply float64_score_huge; exact Hsum|].
  split; [reflexivity|].
  change (range 1 5) with [1; 2; 3; 4]%nat.
  cbn [Float64.select_ideals].
  rewrite (float64_scan_huge np_sum Hsum 1) by lia. cbn [bind snd].
  rewrite (float64_scan_huge np_sum Hsum 2) by lia. cbn [bind snd].
  rewrite (float64_scan_huge np_sum Hsum 3) by lia. cbn [bind snd].
  rewrite (float64_scan_huge np_sum Hsum 4) by lia. reflexivity.
Qed.

Lemma huge_training_values_select_nothing_witness :
  Float64.sum_left [PrimFloat.infinity] = PrimFloat.infinity /\
  Float64.select_ideals Float64.sum_left Float64.ex_train_huge
    Float64.ex_ideal_zero (range 1 5) []
    = Ok [("y1", None); ("y2", None); ("y3", None); ("y4", None)].
Proof.
  split; [reflexivity|].
  apply (huge_training_values_select_nothing Float64.sum_left).
  reflexivity.
Defined.

(** * Mapping *)

(** C2. A selection qualifies for a test point exactly when the
    deviation is at most its threshold; the loop assigns the point to
    the qualifying selection of smallest deviation, every qualifying
    selection scanned before it having a strictly larger deviation, and
    leaves the point unassigned when none qualifies. *)
Theorem mapping_picks_first_smallest_qualifying
    (train_df ideal_df : DataFrame) (x_val y_val : R)
    (items : dict) (evs : list (R * pyfloat)) :
  Forall2 (fun item ev =>
             item_eval train_df ideal_df x_val y_val item = Ok ev)
          items evs ->
  exists min_deviation best_map,
    map_items train_df ideal_df x_val y_val items PInf None =
      Ok (min_deviation, best_map) /\
    ((min_deviation = PInf /\ best_map = None /\
      forall k d thr, nth_error evs k = Some (d, thr) ->
                      fle (Finite d) thr = false)
     \/
     exists k item d thr,
       nth_error items k = Some item /\ nth_error evs k = Some (d, thr) /\
       fle (Finite d) thr = true /\
       min_deviation = Finite d /\ best_map = snd item /\
       forall k' d' thr',
         nth_error evs k' = Some (d', thr') ->
         fle (Finite d') thr' = true ->
         d <= d' /\ ((k' < k)%nat -> d < d')).
Proof. apply map_items_spec. Qed.

Lemma mapping_picks_first_smallest_qualifying_witness :
  exists min_deviation best_map,
    map_items ex_train ex_ideal 0 0 ex_selected PInf None =
    Ok (min_deviation, best_map).
Proof.
  destruct (mapping_picks_first_smallest_qualifying ex_train ex_ideal 0 0
              ex_selected
              (map (fun _ => (Rabs (0 - 0), get_threshold [0; 1] [0; 1]))
                   ex_selected))
    as (m & b & E & _).
  - apply (const_items_eval [0; 1] [0; 1] [0; 1] [0; 1] 0 0 0).
    apply loc_first_head.
  - exists m, b. exact E.
Defined.

(** Against C3 as stated: the run on a single test row far off every
    selected curve finishes with an empty result list; the point is
    processed and no record is produced for it. *)
Lemma unassigned_point_emits_no_row :
  run_assignment ex_train ex_ideal [row_far_off] = Ok (ex_selected, []) /\
  ~ (forall train_df ideal_df test_df sel results,
        run_assignment train_df ideal_df test_df = Ok (sel, results) ->
        length results = length test_df).
Proof.
  assert (E : run_assignment ex_train ex_ideal [row_far_off] =
              Ok (ex_selected, [])).
  { unfold run_assignment, run_body, ex_train, ex_ideal.
    rewrite select_ideals_const. cbn [bind map_rows].
    fold ex_train ex_ideal. rewrite ex_map_row_far_off. reflexivity. }
  split; [exact E|].
  intros H. specialize (H _ _ _ _ _ E). discriminate.
Qed.

(** C3 (amended). In a finished run each test row contributes at most
    one record: none when no selection qualifies, and exactly one,
    carrying the row's x and y, the deviation and the label of a
    qualifying selection, when some selection qualifies. *)
Theorem one_record_per_assigned_point
    (train_df ideal_df : DataFrame) (test_df : list TestRow)
    (sel : dict) (results : list ResultRow) :
  run_assignment train_df ideal_df test_df = Ok (sel, results) ->
  exists news,
    results = concat news /\
    Forall2
      (fun row new =>
         (new = [] /\
          forall item d thr,
            In item sel ->
            item_eval train_df ideal_df (fst row) (snd row) item = Ok (d, thr) ->
            fle (Finite d) thr = false) \/
         (exists item name d thr,
             In item sel /\ snd item = Some name /\
             item_eval train_df ideal_df (fst row) (snd row) item
               = Ok (d, thr) /\
             fle (Finite d) thr = true /\
             new = [mkResultRow (fst row) (snd row) (Finite d) name]))
      test_df news.
Proof.
  intros E.
  destruct (run_assignment_inv _ _ _ _ _ E)
    as (sels' & news & Hsel & _ & Hsok & Hall & ->).
  exists news. split; [reflexivity|].
  eapply Forall2_impl; [|exact Hall].
  intros row new Hrow. rewrite Hsel in Hrow |- *. cbv beta.
  destruct (map_row_outcome _ _ _ _ _ Hsok Hrow)
    as [[-> Hnone] | (item & name & d & thr & Hin & Hname & He & Hq & -> & _)].
  - left. auto.
  - right. exists item, name, d, thr. auto.
Qed.

Lemma one_record_per_assigned_point_witness :
  run_assignment ex_train ex_ideal [row_on_curve; row_far_off] =
    Ok (ex_selected, [mkResultRow 0 0 (Finite 0) "y1"]) /\
  exists news : list (list ResultRow),
    [mkResultRow 0 0 (Finite 0) "y1"] = concat news /\
    length news = 2%nat.
Proof.
  split; [exact ex_run|].
  destruct (one_record_per_assigned_point ex_train ex_ideal
              [row_on_curve; row_far_off] ex_selected
              [mkResultRow 0 0 (Finite 0) "y1"] ex_run)
    as (news & Hcat & Hall).
  exists news. split; [exact Hcat|].
  symmetry. exact (Forall2_length Hall).
Defined.

(** * The threshold *)



(** * Columns of different lengths *)

(** Against C5 as stated: for a column of two rows and a column of one
    row both operations return a value, and a whole run on such tables
    finishes. *)
Lemma unequal_lengths_return_values :
  length [0; 1] <> length [0] /\
  calculate_least_squares [0; 1] [0] = Finite 0 /\
  get_threshold [0; 1] [0] = Finite 0 /\
  run_assignment (mk_train [0; 1] (fun _ => [0; 1]))
                 (mk_ideal [0] (fun _ => [0])) [row_on_curve] =
    Ok (ex_selected, [mkResultRow 0 0 (Finite 0) "y1"]) /\
  run_assignment (mk_train [0; 1] (fun _ => [0; 1]))
                 (mk_ideal [0] (fun _ => [0])) [row_on_curve] <>
    Raise (DataValidationError DimensionMismatch).
Proof.
  split; [discriminate|]. split; [|split; [|split]].
  - rewrite calculate_least_squares_real. cbn [sum_sq]. f_equal. ring.
  - apply ex_threshold_unequal.
  - apply ex_run_unequal.
  - rewrite ex_run_unequal. discriminate.
Qed.

(** C5 (amended). Neither operation compares lengths or raises: on two
    columns of any lengths both return the value computed over the rows
    the columns share. *)
Theorem unequal_lengths_use_shared_rows (a b : Series) :
  let n := Nat.min (length a) (length b) in
  calculate_least_squares a b =
    calculate_least_squares (firstn n a) (firstn n b) /\
  get_threshold a b = get_threshold (firstn n a) (firstn n b).
Proof.
  cbv zeta. rewrite !calculate_least_squares_real, !get_threshold_real.
  rewrite <- sum_sq_firstn, <- max_abs_firstn.
  split; reflexivity.
Qed.

(** * Failures *)




Lemma ex_ideal_empty_no_column (j : nat) :
  getitem ex_ideal_empty (ycol j) = Raise KeyError.
Proof. reflexivity. Qed.

(** Against C7 as stated: on an ideal table without candidate columns
    the run fails with a wrapped [KeyError]. *)
Lemma empty_pool_raises_keyerror :
  run_assignment ex_train ex_ideal_empty [row_on_curve] =
    Raise (DataValidationError KeyError) /\
  run_assignment ex_train ex_ideal_empty [row_on_curve] <>
    Raise NoCandidatesAvailable /\
  run_assignment ex_train ex_ideal_empty [row_on_curve] <>
    Raise (DataValidationError NoCandidatesAvailable).
Proof.
  rewrite (run_assignment_no_candidates ex_train ex_ideal_empty)
    by (intros; apply ex_ideal_empty_no_column).
  repeat split; discriminate.
Qed.

(** C7 (amended). If the ideal table has no candidate column, the first
    column lookup of the scan fails with a [KeyError], which the run
    re-raises as [DataValidationError]: the run aborts before any
    selection is stored. *)
Theorem empty_pool_is_fatal_to_the_run
    (train_df ideal_df : DataFrame) (test_df : list TestRow) :
  (forall j, (1 <= j <= 50)%nat -> getitem ideal_df (ycol j) = Raise KeyError) ->
  run_assignment train_df ideal_df test_df =
  Raise (DataValidationError KeyError).
Proof. apply run_assignment_no_candidates. Qed.

Lemma empty_pool_is_fatal_to_the_run_witness :
  (forall j, (1 <= j <= 50)%nat ->
             getitem ex_ideal_empty (ycol j) = Raise KeyError) /\
  run_assignment ex_train ex_ideal_empty [] =
  Raise (DataValidationError KeyError).
Proof.
  split.
  - intros j _. apply ex_ideal_empty_no_column.
  - apply (empty_pool_is_fatal_to_the_run ex_train ex_ideal_empty []).
    intros j _. apply ex_ideal_empty_no_column.
Defined.

(** * Identity and sign *)




(** * One threshold per selection *)



(** * Emitted records *)

(** C10. Every record of a finished run belongs to a test row, names
    one of the four selected candidates, and records the deviation of
    the row from that candidate at the row's x; this deviation is at
    most the threshold of the (training, ideal) pair and at most the
    deviation of every other qualifying selection. *)
Theorem emitted_record_invariant
    (train_df ideal_df : DataFrame) (test_df : list TestRow)
    (sel : dict) (results : list ResultRow) :
  run_assignment train_df ideal_df test_df = Ok (sel, results) ->
  length sel = 4%nat /\
  forall r, In r results ->
    In (x r, y r) test_df /\
    exists train_col train_y ideal_y v,
      In (train_col, Some (ideal_function_no r)) sel /\
      getitem train_df train_col = Ok train_y /\
      getitem ideal_df (ideal_function_no r) = Ok ideal_y /\
      loc_first ideal_df (x r) (Some (ideal_function_no r)) = Ok v /\
      delta_y r = Finite (Rabs (y r - v)) /\
      fle (delta_y r) (get_threshold train_y ideal_y) = true /\
      forall item d' thr',
        In item sel ->
        item_eval train_df ideal_df (x r) (y r) item = Ok (d', thr') ->
        fle (Finite d') thr' = true ->
        Rabs (y r - v) <= d'.
Proof.
  intros Hrun.
  destruct (run_assignment_inv _ _ _ _ _ Hrun)
    as (sels & news & -> & Hlen & Hok & Hall & ->).
  split; [rewrite length_map; exact Hlen|].
  intros r Hr.
  apply in_concat in Hr. destruct Hr as (new & Hnew & Hr).
  destruct (In_nth_error _ _ Hnew) as [k Hk].
  destruct (Forall2_nth_error_r _ _ _ _ _ _ _ Hall Hk) as (row & Hrow & Hmap).
  destruct (map_row_outcome _ _ _ _ _ Hok Hmap)
    as [[-> _] | (item & name & d & thr & Hin & Hname & He & Hq & -> & Hmin)];
    [contradiction|].
  destruct Hr as [<-|[]]. cbn [x y delta_y ideal_function_no].
  split.
  - rewrite <- surjective_pairing. eapply nth_error_In; eauto.
  - destruct item as [train_col ideal_col]. cbn [snd] in Hname. subst ideal_col.
    unfold item_eval in He. cbn [fst snd] in He.
    destruct (loc_first ideal_df (fst row) (Some name)) as [v|] eqn:Ev;
      cbn [bind] in He; [|discriminate].
    destruct (getitem train_df train_col) as [train_y|] eqn:Et;
      cbn [bind] in He; [|discriminate].
    destruct (getitem ideal_df name) as [ideal_y|] eqn:Ei;
      cbn [bind] in He; [|discriminate].
    injection He as <- <-.
    exists train_col, train_y, ideal_y, v. repeat split; auto.
Qed.

Lemma emitted_record_invariant_witness :
  run_assignment ex_train ex_ideal [row_on_curve; row_far_off] =
    Ok (ex_selected, [mkResultRow 0 0 (Finite 0) "y1"]) /\
  In (0, 0) [row_on_curve; row_far_off].
Proof.
  split; [exact ex_run|].
  destruct (emitted_record_invariant ex_train ex_ideal
              [row_on_curve; row_far_off] ex_selected
              [mkResultRow 0 0 (Finite 0) "y1"] ex_run) as [_ H].
  destruct (H (mkResultRow 0 0 (Finite 0) "y1")) as [Hin _].
  - left; reflexivity.
  - exact Hin.
Defined.

(** * Further properties of [MathEngine] *)

Lemma sum_sq_sym (a b : Series) : sum_sq a b = sum_sq b a.
Proof.
  revert b; induction a as [|u a IH]; intros [|v b]; simpl; try reflexivity.
  rewrite IH. ring.
Qed.

Lemma max_abs_sym (a b : Series) : max_abs a b = max_abs b a.
Proof.
  revert b; induction a as [|u a IH]; intros [|v b]; simpl; try reflexivity.
  rewrite IH, (Rabs_minus_sym u v). reflexivity.
Qed.

(** X2. Both operations are symmetric in their two columns, whatever
    the lengths. *)
Theorem math_engine_symmetric (a b : Series) :
  calculate_least_squares a b = calculate_least_squares b a /\
  get_threshold a b = get_threshold b a.
Proof.
  rewrite !calculate_least_squares_real, !get_threshold_real.
  rewrite (sum_sq_sym a b), (max_abs_sym a b). split; reflexivity.
Qed.

(** * Further properties of the run *)

Lemma bind_ok (A C : Type) (m : result A) (k : A -> result C) (r : C) :
  bind m k = Ok r -> exists a, m = Ok a /\ k a = Ok r.
Proof. destruct m as [a|e]; cbn [bind]; [eauto | discriminate]. Qed.

Lemma range_1_5 : range 1 5 = [1; 2; 3; 4]%nat.
Proof. reflexivity. Qed.

Lemma select_ideals_cons (train_df ideal_df : DataFrame) (i : nat)
    (labels : list nat) (d : dict) :
  select_ideals train_df ideal_df (i :: labels) d =
  (best <- scan_ideals train_df ideal_df (ycol i) (range 1 51) PInf None ;;
   select_ideals train_df ideal_df labels (dict_set d (ycol i) (snd best))).
Proof. reflexivity. Qed.

Section RunOutcome.

Variables train_df ideal_df : DataFrame.

(** A finished selection has found every column it asks for. *)
Lemma select_ideals_columns (sel : dict) :
  select_ideals train_df ideal_df (range 1 5) [] = Ok sel ->
  (forall i, (1 <= i <= 4)%nat ->
     exists s, getitem train_df (ycol i) = Ok s) /\
  (forall j, (1 <= j <= 50)%nat ->
     exists s, getitem ideal_df (ycol j) = Ok s).
Proof.
  intros H.
  assert (Hscan : forall i, (1 <= i <= 4)%nat ->
            exists best, scan_ideals train_df ideal_df (ycol i)
                           (range 1 51) PInf None = Ok best).
  { rewrite range_1_5 in H.
    rewrite select_ideals_cons in H.
    apply bind_ok in H. destruct H as (b1 & E1 & H).
    rewrite select_ideals_cons in H.
    apply bind_ok in H. destruct H as (b2 & E2 & H).
    rewrite select_ideals_cons in H.
    apply bind_ok in H. destruct H as (b3 & E3 & H).
    rewrite select_ideals_cons in H.
    apply bind_ok in H. destruct H as (b4 & E4 & H).
    intros i Hi.
    assert (Hc : i = 1%nat \/ i = 2%nat \/ i = 3%nat \/ i = 4%nat) by lia.
    destruct Hc as [-> | [-> | [-> | ->]]];
      [exists b1; exact E1 | exists b2; exact E2
      | exists b3; exact E3 | exists b4; exact E4]. }
  assert (Hne : range 1 51 <> []) by discriminate.
  split.
  - intros i Hi. destruct (Hscan i Hi) as [best E].
    destruct (scan_ideals_cases train_df ideal_df (ycol i) (range 1 51)
                Hne PInf None) as [E' | (s & Hs & _)];
      [rewrite E in E'; discriminate | exists s; exact Hs].
  - intros j Hj. destruct (Hscan 1%nat) as [best E]; [lia|].
    destruct (scan_ideals_cases train_df ideal_df (ycol 1) (range 1 51)
                Hne PInf None) as [E' | (s & _ & Hall)];
      [rewrite E in E'; discriminate|].
    eexists. apply Hall. unfold range. apply in_seq. lia.
Qed.

(** The only failures of a row are a missing column and an x off the
    grid. *)
Lemma map_row_outcomes (selections : list Spec.Selection) (row : TestRow) :
  Forall (selection_ok train_df ideal_df) selections ->
  (exists new,
      map_row train_df ideal_df (map Spec.as_item selections) row = Ok new) \/
  map_row train_df ideal_df (map Spec.as_item selections) row
    = Raise KeyError \/
  map_row train_df ideal_df (map Spec.as_item selections) row
    = Raise IndexError.
Proof.
  intros Hok.
  destruct (getitem_cases ideal_df "x") as [Ex | [xs Ex]].
  - destruct Hok as [|s sels Hs _].
    + left. cbn. eauto.
    + right. left. unfold map_row. cbv zeta. cbn [map].
      rewrite map_items_cons. unfold item_eval, loc_first.
      rewrite Ex. reflexivity.
  - destruct (map_row_cases train_df ideal_df xs Ex selections row Hok)
      as [E | [new E]]; [right; right; exact E | left; eauto].
Qed.

Lemma map_rows_outcomes (selections : list Spec.Selection)
    (rows : list TestRow) :
  Forall (selection_ok train_df ideal_df) selections ->
  forall acc,
    (exists res,
        map_rows train_df ideal_df (map Spec.as_item selections) rows acc
        = Ok res) \/
    map_rows train_df ideal_df (map Spec.as_item selections) rows acc
      = Raise KeyError \/
    map_rows train_df ideal_df (map Spec.as_item selections) rows acc
      = Raise IndexError.
Proof.
  intros Hok. induction rows as [|row rows IH]; intros acc.
  - left. cbn. eauto.
  - cbn [map_rows].
    destruct (map_row_outcomes selections row Hok) as [[new E] | [E | E]];
      rewrite E; cbn [bind]; auto.
Qed.

(** Rows that can each be mapped are mapped in order, their
    contributions appended to the accumulator. *)
Lemma map_rows_concat (sel : dict) (rows : list TestRow)
    (news : list (list ResultRow)) :
  Forall2 (fun row new => map_row train_df ideal_df sel row = Ok new)
          rows news ->
  forall acc,
    map_rows train_df ideal_df sel rows acc = Ok (acc ++ concat news)%list.
Proof.
  induction 1 as [|row new rows news Hrow _ IH]; intros acc.
  - cbn. rewrite app_nil_r. reflexivity.
  - cbn [map_rows concat]. rewrite Hrow. cbn [bind].
    rewrite IH, app_assoc. reflexivity.
Qed.

(** A row contributes nothing or one record carrying its own x and y. *)
Lemma map_row_shape (sel : dict) (row : TestRow) (new : list ResultRow) :
  map_row train_df ideal_df sel row = Ok new ->
  new = [] \/
  exists d name, new = [mkResultRow (fst row) (snd row) d name].
Proof.
  unfold map_row. cbv zeta.
  destruct (map_items _ _ _ _ _ _ _) as [m|e]; cbn [bind]; [|discriminate].
  destruct (truthy (snd m)); intros H; injection H as <-; eauto.
Qed.

End RunOutcome.

Lemma run_assignment_ok_iff (train_df ideal_df : DataFrame)
    (test_df : list TestRow) (sel : dict) (results : list ResultRow) :
  run_assignment train_df ideal_df test_df = Ok (sel, results) <->
  select_ideals train_df ideal_df (range 1 5) [] = Ok sel /\
  map_rows train_df ideal_df sel test_df [] = Ok results.
Proof.
  unfold run_assignment, run_body. split.
  - intros H.
    destruct (select_ideals train_df ideal_df (range 1 5) []) as [sel'|e];
      cbn [bind] in H; [|discriminate].
    destruct (map_rows train_df ideal_df sel' test_df []) as [res|e] eqn:E;
      cbn [bind] in H; [|discriminate].
    injection H as <- <-. auto.
  - intros [-> H]. cbn [bind]. rewrite H. reflexivity.
Qed.

(** X5. If one of the four training columns or of the fifty ideal
    columns is missing, the run fails with a wrapped [KeyError],
    whatever the test table holds. *)
Theorem missing_column_is_fatal (train_df ideal_df : DataFrame)
    (test_df : list TestRow) :
  (exists i, (1 <= i <= 4)%nat /\
             getitem train_df (ycol i) = Raise KeyError) \/
  (exists j, (1 <= j <= 50)%nat /\
             getitem ideal_df (ycol j) = Raise KeyError) ->
  run_assignment train_df ideal_df test_df =
  Raise (DataValidationError KeyError).
Proof.
  intros Hmiss. unfold run_assignment, run_body.
  destruct (select_cases train_df ideal_df)
    as [[_ E] | (sels & _ & E & _ & _)]; rewrite E; cbn [bind];
    [reflexivity|].
  exfalso.
  destruct (select_ideals_columns train_df ideal_df _ E) as [Ht Hc].
  destruct Hmiss as [(i & Hi & Hm) | (j & Hj & Hm)].
  - destruct (Ht i Hi) as [s Hs]. rewrite Hs in Hm. discriminate.
  - destruct (Hc j Hj) as [s Hs]. rewrite Hs in Hm. discriminate.
Qed.

Lemma missing_column_is_fatal_witness :
  getitem ex_train_short (ycol 4) = Raise KeyError /\
  run_assignment ex_train_short ex_ideal [row_on_curve] =
  Raise (DataValidationError KeyError).
Proof.
  split; [reflexivity|].
  apply (missing_column_is_fatal ex_train_short ex_ideal [row_on_curve]).
  left. exists 4%nat. split; [lia | reflexivity].
Defined.

(** X6. The grid column of the ideal table is only consulted for test
    rows: without it a run over an empty test table finishes with the
    four selections and no record, and a run over any other test table
    fails with a wrapped [KeyError]. *)
Theorem missing_grid_column (train_df ideal_df : DataFrame)
    (t c : nat -> Series) (test_df : list TestRow) :
  (forall i, (1 <= i <= 4)%nat -> getitem train_df (ycol i) = Ok (t i)) ->
  (forall j, (1 <= j <= 50)%nat -> getitem ideal_df (ycol j) = Ok (c j)) ->
  getitem ideal_df "x" = Raise KeyError ->
  (test_df = [] ->
   exists sel, length sel = 4%nat /\
               run_assignment train_df ideal_df test_df = Ok (sel, [])) /\
  (test_df <> [] ->
   run_assignment train_df ideal_df test_df =
   Raise (DataValidationError KeyError)).
Proof.
  intros Ht Hc Hx. unfold run_assignment, run_body.
  destruct (select_ideals_total train_df ideal_df t c Ht Hc)
    as (sels & E & Hlen & Hok).
  rewrite E. cbn [bind]. split.
  - intros ->. exists (map Spec.as_item sels).
    split; [rewrite length_map; exact Hlen | reflexivity].
  - intros Hne. destruct test_df as [|row rows]; [congruence|].
    destruct sels as [|s sels]; [discriminate|].
    cbn [map_rows]. unfold map_row. cbv zeta. cbn [map].
    rewrite map_items_cons. unfold item_eval, loc_first. rewrite Hx.
    reflexivity.
Qed.

Lemma ex_ideal_no_x_columns (j : nat) :
  (1 <= j <= 50)%nat -> getitem ex_ideal_no_x (ycol j) = Ok [0; 1].
Proof.
  intros Hj. unfold getitem, ex_ideal_no_x.
  rewrite (df_col_ycols (fun _ => [0; 1])); [reflexivity|].
  unfold range. apply in_seq. lia.
Qed.

Lemma missing_grid_column_witness :
  getitem ex_ideal_no_x "x" = Raise KeyError /\
  (exists sel, run_assignment ex_train ex_ideal_no_x [] = Ok (sel, [])) /\
  run_assignment ex_train ex_ideal_no_x [row_on_curve] =
  Raise (DataValidationError KeyError).
Proof.
  assert (Hx : getitem ex_ideal_no_x "x" = Raise KeyError).
  { unfold getitem.
    assert (H : forall js, df_col (map (fun j => (ycol j, [0; 1])) js) "x"
                           = None).
    { induction js as [|j js IH]; [reflexivity|]. cbn [map df_col].
      rewrite IH. reflexivity. }
    unfold ex_ideal_no_x. rewrite H. reflexivity. }
  split; [exact Hx|].
  split.
  - destruct (missing_grid_column ex_train ex_ideal_no_x
                (fun _ => [0; 1]) (fun _ => [0; 1]) []
                (proj1 ex_tables_ok) ex_ideal_no_x_columns Hx) as [H _].
    destruct (H eq_refl) as (sel & _ & E). exists sel. exact E.
  - destruct (missing_grid_column ex_train ex_ideal_no_x
                (fun _ => [0; 1]) (fun _ => [0; 1]) [row_on_curve]
                (proj1 ex_tables_ok) ex_ideal_no_x_columns Hx) as [_ H].
    apply H. discriminate.
Defined.

Lemma map_rows_ok_iff (train_df ideal_df : DataFrame) (sel : dict)
    (rows : list TestRow) (results : list ResultRow) :
  map_rows train_df ideal_df sel rows [] = Ok results <->
  exists news,
    Forall2 (fun row new => map_row train_df ideal_df sel row = Ok new)
            rows news /\
    results = concat news.
Proof.
  split.
  - intros H. destruct (map_rows_inv _ _ _ _ _ _ H) as (news & Hall & ->).
    exists news. auto.
  - intros (news & Hall & ->).
    rewrite (map_rows_concat _ _ _ _ _ Hall). reflexivity.
Qed.

(** X7. Test rows are mapped independently of each other: a run over
    two test tables in a row finishes exactly when the runs over each
    of them finish, with the same selections, and its records are those
    of the first run followed by those of the second. *)
Theorem run_over_concatenated_tests (train_df ideal_df : DataFrame)
    (test1 test2 : list TestRow) (sel : dict) (results : list ResultRow) :
  run_assignment train_df ideal_df (test1 ++ test2) = Ok (sel, results) <->
  exists results1 results2,
    run_assignment train_df ideal_df test1 = Ok (sel, results1) /\
    run_assignment train_df ideal_df test2 = Ok (sel, results2) /\
    results = (results1 ++ results2)%list.
Proof.
  rewrite run_assignment_ok_iff, map_rows_ok_iff. split.
  - intros (Hsel & news & Hall & ->).
    apply Forall2_app_inv_l in Hall.
    destruct Hall as (news1 & news2 & H1 & H2 & ->).
    exists (concat news1), (concat news2).
    rewrite !run_assignment_ok_iff, !map_rows_ok_iff.
    repeat split; eauto. apply concat_app.
  - intros (r1 & r2 & H1 & H2 & ->).
    apply run_assignment_ok_iff in H1, H2.
    destruct H1 as [Hsel H1], H2 as [_ H2].
    apply map_rows_ok_iff in H1, H2.
    destruct H1 as (news1 & Hall1 & ->), H2 as (news2 & Hall2 & ->).
    split; [exact Hsel|].
    exists (news1 ++ news2)%list. split.
    + apply Forall2_app; assumption.
    + symmetry. apply concat_app.
Qed.

Lemma run_over_concatenated_tests_witness :
  exists results1 results2,
    run_assignment ex_train ex_ideal [row_on_curve] = Ok (ex_selected, results1) /\
    run_assignment ex_train ex_ideal [row_far_off] = Ok (ex_selected, results2) /\
    [mkResultRow 0 0 (Finite 0) "y1"] = (results1 ++ results2)%list.
Proof.
  exact (proj1 (run_over_concatenated_tests ex_train ex_ideal
                  [row_on_curve] [row_far_off] ex_selected
                  [mkResultRow 0 0 (Finite 0) "y1"]) ex_run).
Defined.

(** X8. The records of a finished run follow the order of the test
    table and no test row is recorded twice: the (x, y) pairs of the
    records are the test rows that remain after striking some of them
    out, so there are at most as many records as test rows. *)
Theorem records_follow_test_order (train_df ideal_df : DataFrame)
    (test_df : list TestRow) (sel : dict) (results : list ResultRow) :
  run_assignment train_df ideal_df test_df = Ok (sel, results) ->
  (length results <= length test_df)%nat /\
  exists keep : list bool,
    length keep = length test_df /\
    map (fun r => (x r, y r)) results =
    map fst (filter snd (combine test_df keep)).
Proof.
  intros H. apply run_assignment_ok_iff in H. destruct H as [_ H].
  apply map_rows_ok_iff in H. destruct H as (news & Hall & ->).
  induction Hall as [|row new rows news Hrow _ IH].
  - split; [cbn; lia|]. exists []. split; reflexivity.
  - destruct IH as [Hle (keep & Hlen & Heq)].
    cbn [concat]. rewrite length_app, map_app.
    destruct (map_row_shape _ _ _ _ _ Hrow) as [-> | (d & name & ->)].
    + split; [cbn; lia|]. exists (false :: keep).
      split; [cbn; congruence|]. cbn. exact Heq.
    + split; [cbn; lia|]. exists (true :: keep).
      split; [cbn; congruence|]. cbn. rewrite Heq.
      destruct row; reflexivity.
Qed.

Lemma records_follow_test_order_witness :
  (length [mkResultRow 0 0 (Finite 0) "y1"] <=
   length [row_on_curve; row_far_off])%nat.
Proof.
  exact (proj1 (records_follow_test_order ex_train ex_ideal
                  [row_on_curve; row_far_off] ex_selected
                  [mkResultRow 0 0 (Finite 0) "y1"] ex_run)).
Defined.

(** X10. The lookup on the grid takes the value in the first row whose
    x equals the test point's x, also when the grid repeats that x
    further down. *)
Theorem lookup_takes_first_matching_row (ideal_df : DataFrame)
    (name : string) (col pre post : Series) (x_val : R) :
  getitem ideal_df "x" = Ok (pre ++ x_val :: post)%list ->
  getitem ideal_df name = Ok col ->
  length col = length (pre ++ x_val :: post)%list ->
  ~ In x_val pre ->
  loc_first ideal_df x_val (Some name) = Ok (nth (length pre) col 0).
Proof.
  intros Hx Hc Hlen Hn. unfold loc_first. rewrite Hx, Hc. cbn [bind].
  clear Hx Hc. revert col Hlen.
  induction pre as [|u pre IH]; intros [|v col] Hlen; cbn in Hlen;
    try discriminate.
  - cbn [app combine filter fst]. destruct (Req_dec_T x_val x_val) as [_|H];
      [reflexivity | congruence].
  - cbn [app combine filter fst length nth].
    destruct (Req_dec_T u x_val) as [->|_].
    + exfalso. apply Hn. left. reflexivity.
    + apply IH; [|congruence]. intros H. apply Hn. right. exact H.
Qed.

Lemma lookup_takes_first_matching_row_witness :
  loc_first [("x", [0; 1; 1]); ("y1", [5; 6; 7])] 1 (Some "y1") = Ok 6.
Proof.
  apply (lookup_takes_first_matching_row
           [("x", [0; 1; 1]); ("y1", [5; 6; 7])] "y1" [5; 6; 7] [0] [1] 1).
  - reflexivity.
  - reflexivity.
  - reflexivity.
  - cbn. intros [H|[]]. lra.
Defined.


(** * The selection loop on the scores as computed *)

Section ScoredSelection.

Variable score : Series -> Series -> pyfloat.
Variables train_df ideal_df : DataFrame.

(** The scan is [first_min] over the scores of the scanned columns; a
    score of [inf] or [nan] is never taken. *)
Lemma scored_scan_first_min (train_col : string) (train_y : Series)
    (c : nat -> Series) (js : list nat) :
  getitem train_df train_col = Ok train_y ->
  (forall j, In j js -> getitem ideal_df (ycol j) = Ok (c j)) ->
  forall m b,
    Scored.scan_ideals score train_df ideal_df train_col js m b =
    Ok (first_min
          (map (fun j => score_entry (score train_y (c j)) (Some (ycol j)))
               js) m b).
Proof.
  intros Ht. induction js as [|j js IH]; intros Hc m b.
  - reflexivity.
  - cbn [Scored.scan_ideals map]. rewrite Ht. cbn [bind].
    rewrite (Hc j) by (left; reflexivity). cbn [bind].
    assert (IH' := fun m b => IH (fun j Hj => Hc j (or_intror Hj)) m b).
    destruct (score train_y (c j)) as [v| |]; cbn [score_entry first_min].
    + destruct (flt (Finite v) m); apply IH'.
    + replace (flt PInf m) with false by (destruct m; reflexivity).
      apply IH'.
    + replace (flt NaN m) with false by (destruct m; reflexivity).
      apply IH'.
Qed.

(** Over the fifty labels: either no score is below [float('inf')] and
    the state is untouched, or the scan ends on the first candidate of
    least finite score. *)
Lemma scored_scan_spec (train_col : string) (train_y : Series)
    (c : nat -> Series) :
  getitem train_df train_col = Ok train_y ->
  (forall j, (1 <= j <= 50)%nat -> getitem ideal_df (ycol j) = Ok (c j)) ->
  (Scored.scan_ideals score train_df ideal_df train_col (range 1 51)
     PInf None = Ok (PInf, None) /\
   forall j, (1 <= j <= 50)%nat -> flt (score train_y (c j)) PInf = false) \/
  (exists j0 v,
      (1 <= j0 <= 50)%nat /\ score train_y (c j0) = Finite v /\
      Scored.scan_ideals score train_df ideal_df train_col (range 1 51)
        PInf None = Ok (Finite v, Some (ycol j0)) /\
      forall j v', (1 <= j <= 50)%nat -> score train_y (c j) = Finite v' ->
                   v <= v' /\ ((j < j0)%nat -> v < v')).
Proof.
  intros Ht Hc.
  rewrite (scored_scan_first_min train_col train_y c) by
    (auto; intros j Hj; apply Hc; unfold range in Hj; apply in_seq in Hj; lia).
  unfold range. change (51 - 1)%nat with 50%nat.
  set (f := fun j => score_entry (score train_y (c j)) (Some (ycol j))).
  assert (Hnth : forall j, (1 <= j <= 50)%nat ->
            nth_error (map f (seq 1 50)) (j - 1) = Some (f j)).
  { intros j Hj. rewrite nth_error_map_seq.
    replace (j - 1 <? 50)%nat with true by (symmetry; apply Nat.ltb_lt; lia).
    replace (1 + (j - 1))%nat with j by lia. reflexivity. }
  destruct (first_min_spec (map f (seq 1 50)) None)
    as [[Heq Hnone] | (k & v & b & Heq & Hk & Hmin)].
  - left. split; [rewrite Heq; reflexivity|]. intros j Hj.
    specialize (Hnth j Hj). unfold f in Hnth.
    destruct (score train_y (c j)) as [v| |]; [|reflexivity|reflexivity].
    exfalso. cbn [score_entry] in Hnth. eapply Hnone. exact Hnth.
  - right. rewrite nth_error_map_seq in Hk.
    destruct (k <? 50)%nat eqn:Hlt; [|discriminate].
    apply Nat.ltb_lt in Hlt. injection Hk as Hk. unfold f in Hk.
    destruct (score train_y (c (S k))) as [v0| |] eqn:E;
      cbn [score_entry] in Hk; try discriminate.
    injection Hk as -> <-.
    exists (S k), v. split; [lia|]. split; [exact E|].
    split; [rewrite Heq; reflexivity|].
    intros j v' Hj Ev. specialize (Hnth j Hj). unfold f in Hnth.
    rewrite Ev in Hnth. cbn [score_entry] in Hnth.
    destruct (Hmin _ _ _ Hnth) as [H1 H2]. split; [exact H1|].
    intros Hl. apply H2. lia.
Qed.

(** The outer loop stores, for each training column, what its scan
    ended on. *)
Lemma scored_select_get (t c : nat -> Series) :
  (forall i, (1 <= i <= 4)%nat -> getitem train_df (ycol i) = Ok (t i)) ->
  (forall j, (1 <= j <= 50)%nat -> getitem ideal_df (ycol j) = Ok (c j)) ->
  exists sel,
    Scored.select_ideals score train_df ideal_df (range 1 5) [] = Ok sel /\
    map fst sel = ["y1"; "y2"; "y3"; "y4"] /\
    forall i, (1 <= i <= 4)%nat ->
      exists r,
        Scored.scan_ideals score train_df ideal_df (ycol i) (range 1 51)
          PInf None = Ok r /\
        dict_get sel (ycol i) = Some (snd r).
Proof.
  intros Ht Hc.
  assert (Hscan : forall i, (1 <= i <= 4)%nat ->
            exists r,
              Scored.scan_ideals score train_df ideal_df (ycol i)
                (range 1 51) PInf None = Ok r).
  { intros i Hi.
    rewrite (scored_scan_first_min (ycol i) (t i) c) by
      (auto; intros j Hj; apply Hc; unfold range in Hj;
       apply in_seq in Hj; lia).
    eexists. reflexivity. }
  destruct (Hscan 1%nat) as [r1 E1]; [lia|].
  destruct (Hscan 2%nat) as [r2 E2]; [lia|].
  destruct (Hscan 3%nat) as [r3 E3]; [lia|].
  destruct (Hscan 4%nat) as [r4 E4]; [lia|].
  exists [("y1", snd r1); ("y2", snd r2); ("y3", snd r3); ("y4", snd r4)].
  split; [|split; [reflexivity|]].
  - change (range 1 5) with [1; 2; 3; 4]%nat.
    cbn [Scored.select_ideals]. rewrite E1. cbn [bind].
    rewrite E2. cbn [bind]. rewrite E3. cbn [bind]. rewrite E4. reflexivity.
  - intros i Hi.
    assert (Hcases : i = 1%nat \/ i = 2%nat \/ i = 3%nat \/ i = 4%nat)
      by lia.
    destruct Hcases as [-> | [-> | [-> | ->]]].
    + exists r1. split; [exact E1 | reflexivity].
    + exists r2. split; [exact E2 | reflexivity].
    + exists r3. split; [exact E3 | reflexivity].
    + exists r4. split; [exact E4 | reflexivity].
Qed.

End ScoredSelection.

(** With the exact sum of squares as the score, [Scored] is the
    selection loop of the pipeline. *)
Lemma scored_scan_exact (train_df ideal_df : DataFrame) (train_col : string)
    (js : list nat) :
  forall m b,
    Scored.scan_ideals calculate_least_squares train_df ideal_df train_col
      js m b = scan_ideals train_df ideal_df train_col js m b.
Proof.
  induction js as [|j js IH]; intros m b; [reflexivity|].
  cbn [Scored.scan_ideals scan_ideals].
  destruct (getitem train_df train_col) as [ty|]; cbn [bind]; [|reflexivity].
  destruct (getitem ideal_df (ycol j)) as [iy|]; cbn [bind]; [|reflexivity].
  destruct (flt (calculate_least_squares ty iy) m); apply IH.
Qed.

Lemma scored_select_exact (train_df ideal_df : DataFrame) (labels : list nat) :
  forall d,
    Scored.select_ideals calculate_least_squares train_df ideal_df labels d
    = select_ideals train_df ideal_df labels d.
Proof.
  induction labels as [|i labels IH]; intros d; [reflexivity|].
  cbn [Scored.select_ideals select_ideals]. rewrite scored_scan_exact.
  destruct (scan_ideals train_df ideal_df (ycol i) (range 1 51) PInf None);
    cbn [bind]; [apply IH | reflexivity].
Qed.

(** X21. Whatever the scores are, the selection loop stores for each
    training column the first candidate of least score among those whose
    score is below [float('inf')]: no candidate scores below it, and
    every lower-labelled candidate scoring below [float('inf')] scores
    strictly above it.  It stores [None] exactly when no candidate
    scores below [float('inf')]. *)
Theorem selection_keeps_first_least_score
    (score : Series -> Series -> pyfloat) (train_df ideal_df : DataFrame)
    (t c : nat -> Series) :
  (forall i, (1 <= i <= 4)%nat -> getitem train_df (ycol i) = Ok (t i)) ->
  (forall j, (1 <= j <= 50)%nat -> getitem ideal_df (ycol j) = Ok (c j)) ->
  exists sel,
    Scored.select_ideals score train_df ideal_df (range 1 5) [] = Ok sel /\
    map fst sel = ["y1"; "y2"; "y3"; "y4"] /\
    forall i, (1 <= i <= 4)%nat ->
      (dict_get sel (ycol i) = Some None /\
       forall j, (1 <= j <= 50)%nat ->
                 flt (score (t i) (c j)) PInf = false) \/
      (exists j0,
          (1 <= j0 <= 50)%nat /\
          dict_get sel (ycol i) = Some (Some (ycol j0)) /\
          flt (score (t i) (c j0)) PInf = true /\
          forall j, (1 <= j <= 50)%nat ->
            flt (score (t i) (c j)) (score (t i) (c j0)) = false /\
            ((j < j0)%nat -> flt (score (t i) (c j)) PInf = true ->
             flt (score (t i) (c j0)) (score (t i) (c j)) = true)).
Proof.
  intros Ht Hc.
  destruct (scored_select_get score train_df ideal_df t c Ht Hc)
    as (sel & Esel & Hkeys & Hget).
  exists sel. split; [exact Esel|]. split; [exact Hkeys|]. intros i Hi.
  destruct (Hget i Hi) as (r & Er & Hd).
  destruct (scored_scan_spec score train_df ideal_df (ycol i) (t i) c
              (Ht i Hi) Hc)
    as [[E Hnone] | (j0 & v & Hj0 & Es & E & Hmin)];
    rewrite Er in E; injection E as ->; cbn [snd] in Hd.
  - left. split; [exact Hd | exact Hnone].
  - right. exists j0. split; [exact Hj0|]. split; [exact Hd|].
    rewrite Es. split; [reflexivity|]. intros j Hj.
    destruct (score (t i) (c j)) as [v'| |] eqn:Ej.
    + destruct (Hmin j v' Hj Ej) as [H1 H2]. split.
      * apply flt_Finite_false. exact H1.
      * intros Hl _. apply flt_Finite. auto.
    + split; [reflexivity | intros _ Hf; discriminate].
    + split; [reflexivity | intros _ Hf; discriminate].
Qed.

Lemma selection_keeps_first_least_score_witness :
  exists sel,
    Scored.select_ideals calculate_least_squares ex_train ex_ideal
      (range 1 5) [] = Ok sel /\
    map fst sel = ["y1"; "y2"; "y3"; "y4"].
Proof.
  destruct (selection_keeps_first_least_score calculate_least_squares
              ex_train ex_ideal (fun _ => [0; 1]) (fun _ => [0; 1])
              (proj1 ex_tables_ok) (proj1 (proj2 ex_tables_ok)))
    as (sel & E & Hkeys & _).
  exists sel. split; [exact E | exact Hkeys].
Defined.

(** X11. A candidate that reproduces a training column exactly is the
    one selected for it, provided no lower-labelled candidate scores 0
    as well.  This holds for every score that is 0 on identical columns
    and never below 0, as the sum of squares is in exact and in double
    arithmetic. *)
Theorem exact_candidate_is_selected
    (score : Series -> Series -> pyfloat) (train_df ideal_df : DataFrame)
    (t c : nat -> Series) (i j : nat) :
  (forall s, score s s = Finite 0) ->
  (forall a b, flt (score a b) (Finite 0) = false) ->
  (forall i, (1 <= i <= 4)%nat -> getitem train_df (ycol i) = Ok (t i)) ->
  (forall j, (1 <= j <= 50)%nat -> getitem ideal_df (ycol j) = Ok (c j)) ->
  (1 <= i <= 4)%nat -> (1 <= j <= 50)%nat ->
  c j = t i ->
  (forall j', (1 <= j' < j)%nat -> score (t i) (c j') <> Finite 0) ->
  exists sel,
    Scored.select_ideals score train_df ideal_df (range 1 5) [] = Ok sel /\
    dict_get sel (ycol i) = Some (Some (ycol j)).
Proof.
  intros Hrefl Hnonneg Ht Hc Hi Hj Heq Hlow.
  assert (Hzero : score (t i) (c j) = Finite 0) by (rewrite Heq; apply Hrefl).
  destruct (scored_select_get score train_df ideal_df t c Ht Hc)
    as (sel & Esel & _ & Hget).
  exists sel. split; [exact Esel|].
  destruct (Hget i Hi) as (r & Er & Hd).
  destruct (scored_scan_spec score train_df ideal_df (ycol i) (t i) c
              (Ht i Hi) Hc)
    as [[E Hnone] | (j0 & v & Hj0 & Es & E & Hmin)];
    rewrite Er in E; injection E as ->; cbn [snd] in Hd.
  - specialize (Hnone j Hj). rewrite Hzero in Hnone. discriminate.
  - destruct (Hmin j 0 Hj Hzero) as [H1 H2].
    pose proof (Hnonneg (t i) (c j0)) as Hn. rewrite Es in Hn.
    apply flt_Finite_false in Hn.
    assert (Hv : v = 0) by lra. subst v.
    assert (Hjj : j0 = j).
    { destruct (Nat.lt_trichotomy j0 j) as [H | [H | H]]; [|exact H|].
      - exfalso. apply (Hlow j0); [lia | exact Es].
      - specialize (H2 H). lra. }
    subst j0. exact Hd.
Qed.

Lemma exact_candidate_is_selected_witness :
  exists sel,
    Scored.select_ideals calculate_least_squares ex_train ex_ideal
      (range 1 5) [] = Ok sel /\
    dict_get sel (ycol 2) = Some (Some (ycol 1)).
Proof.
  apply (exact_candidate_is_selected calculate_least_squares
           ex_train ex_ideal (fun _ => [0; 1]) (fun _ => [0; 1]) 2 1).
  - intros s. rewrite calculate_least_squares_real, sum_sq_refl. reflexivity.
  - intros a b. rewrite calculate_least_squares_real.
    apply flt_Finite_false, sum_sq_nonneg.
  - exact (proj1 ex_tables_ok).
  - exact (proj1 (proj2 ex_tables_ok)).
  - lia.
  - lia.
  - reflexivity.
  - intros j' Hj'. lia.
Defined.





(** * [MathEngine] on numpy operands *)

Lemma fold_sum_sq (a b : list R) :
  length a = length b ->
  fold_right Rplus 0
    (map (fun u => u * u) (map (fun p => fst p - snd p) (combine a b)))
  = sum_sq a b.
Proof.
  revert b; induction a as [|u a IH]; intros [|v b] Hlen; simpl in Hlen;
    try discriminate; [reflexivity|].
  cbn [combine map fold_right sum_sq fst snd]. rewrite IH by congruence.
  reflexivity.
Qed.

Lemma fold_max_seed (l : list R) (u v : R) :
  Rmax v (fold_right Rmax u l) = Rmax u (fold_right Rmax v l).
Proof.
  induction l as [|w l IH]; cbn [fold_right].
  - apply Rmax_comm.
  - rewrite !Rmax_assoc, (Rmax_comm v w), <- !Rmax_assoc, IH.
    rewrite !Rmax_assoc, (Rmax_comm w u). reflexivity.
Qed.

Lemma amax_max_abs (a b : list R) :
  length a = length b ->
  Ndarray.amax
    (Ndarray.absolute
       (Ndarray.Array (map (fun p => fst p - snd p) (combine a b)))) =
  match max_abs a b with
  | Some m => Return m
  | None => Throw ValueError
  end.
Proof.
  revert b; induction a as [|u a IH]; intros [|v b] Hlen; simpl in Hlen;
    try discriminate; [reflexivity|].
  injection Hlen as Hlen. specialize (IH b Hlen).
  cbn [combine map Ndarray.absolute Ndarray.amax max_abs fst snd] in *.
  destruct (max_abs a b) as [m|].
  - destruct (map Rabs (map (fun p => fst p - snd p) (combine a b)))
      as [|d ds]; [discriminate|].
    injection IH as IH. cbn [fold_right].
    rewrite fold_max_seed, IH. reflexivity.
  - destruct (map Rabs (map (fun p => fst p - snd p) (combine a b)))
      as [|d ds]; [reflexivity | discriminate].
Qed.

(** X12. On arrays of equal length the two methods compute the same
    numbers as on Series, except that the threshold of two arrays
    without elements is refused with a [ValueError] where the Series
    give [nan]. *)
Theorem arrays_agree_with_series (a b : list R) :
  length a = length b ->
  (forall s, MathEngine.calculate_least_squares a b = Finite s ->
             Ndarray.calculate_least_squares (Ndarray.Array a) (Ndarray.Array b)
             = Return s) /\
  (forall v, MathEngine.get_threshold a b = Finite v ->
             Ndarray.get_threshold (Ndarray.Array a) (Ndarray.Array b)
             = Return v) /\
  (MathEngine.get_threshold a b = NaN ->
   Ndarray.get_threshold (Ndarray.Array a) (Ndarray.Array b)
   = Throw ValueError).
Proof.
  intros Hlen.
  unfold Ndarray.calculate_least_squares, Ndarray.get_threshold,
    Ndarray.subtract.
  rewrite calculate_least_squares_real, get_threshold_real.
  rewrite Hlen, Nat.eqb_refl. rewrite (amax_max_abs a b Hlen).
  cbn [Ndarray.power2 Ndarray.sum]. rewrite (fold_sum_sq a b Hlen).
  split; [|split].
  - intros s H. injection H as <-. reflexivity.
  - intros v H. destruct (max_abs a b); [|discriminate].
    injection H as <-. reflexivity.
  - intros H. destruct (max_abs a b); [discriminate | reflexivity].
Qed.

Lemma arrays_agree_with_series_witness :
  Ndarray.calculate_least_squares
    (Ndarray.Array [1; 2; 3; 4]) (Ndarray.Array [1; 2; 3; 4]) = Return 0.
Proof.
  apply (arrays_agree_with_series [1; 2; 3; 4] [1; 2; 3; 4] eq_refl).
  rewrite calculate_least_squares_real, sum_sq_refl. reflexivity.
Defined.

(** X13. Arrays of different lengths, neither of them of length 1,
    make both methods fail with a [ValueError]: unlike Series, arrays
    are never cut down to their shared rows. *)
Theorem arrays_of_different_lengths_are_refused (a b : list R) :
  length a <> length b -> length a <> 1%nat -> length b <> 1%nat ->
  Ndarray.calculate_least_squares (Ndarray.Array a) (Ndarray.Array b)
    = Throw ValueError /\
  Ndarray.get_threshold (Ndarray.Array a) (Ndarray.Array b)
    = Throw ValueError.
Proof.
  intros Hne Ha Hb.
  unfold Ndarray.calculate_least_squares, Ndarray.get_threshold,
    Ndarray.subtract.
  apply Nat.eqb_neq in Hne. rewrite Hne.
  destruct a as [|u [|u' a]]; [| cbn in Ha; congruence |];
    (destruct b as [|v [|v' b]]; [| cbn in Hb; congruence |]);
    split; reflexivity.
Qed.

Lemma arrays_of_different_lengths_are_refused_witness :
  Ndarray.calculate_least_squares (Ndarray.Array [0; 1]) (Ndarray.Array [])
    = Throw ValueError /\
  Ndarray.get_threshold (Ndarray.Array [0; 1]) (Ndarray.Array [])
    = Throw ValueError.
Proof.
  apply (arrays_of_different_lengths_are_refused [0; 1] []); discriminate.
Defined.

Lemma array_least_squares (a b : list R) :
  length a = length b ->
  Ndarray.calculate_least_squares (Ndarray.Array a) (Ndarray.Array b)
  = Return (sum_sq a b).
Proof.
  intros Hlen. unfold Ndarray.calculate_least_squares, Ndarray.subtract.
  rewrite Hlen, Nat.eqb_refl. cbn [Ndarray.power2 Ndarray.sum].
  rewrite (fold_sum_sq a b Hlen). reflexivity.
Qed.

Lemma fold_max_bound (l : list R) (u v : R) :
  In v (u :: l) -> v <= fold_right Rmax u l.
Proof.
  induction l as [|w l IH]; cbn [fold_right]; intros Hv.
  - destruct Hv as [<-|[]]. lra.
  - destruct Hv as [<- | [<- | Hv]].
    + eapply Rle_trans; [apply IH; left; reflexivity | apply Rmax_r].
    + apply Rmax_l.
    + eapply Rle_trans; [apply IH; right; exact Hv | apply Rmax_r].
Qed.

(** X14. What the two unit tests check at one input holds at all inputs
    of the same shape: the sum of squares of any array against itself
    is 0, and the threshold of a deviation [d >= 0] against the array
    [[0]] is [d * sqrt 2]; against an array of several elements a float
    is compared with every element. *)
Theorem unit_tests_hold_in_general :
  (forall a, Ndarray.calculate_least_squares (Ndarray.Array a)
               (Ndarray.Array a) = Return 0) /\
  (forall d, 0 <= d ->
             Ndarray.get_threshold (Ndarray.Scalar d) (Ndarray.Array [0])
             = Return (d * sqrt 2)) /\
  (forall d u l,
      exists m,
        Ndarray.get_threshold (Ndarray.Scalar d) (Ndarray.Array (u :: l))
          = Return (m * sqrt 2) /\
        forall v, In v (u :: l) -> Rabs (d - v) <= m).
Proof.
  split; [|split].
  - intros a. rewrite (array_least_squares a a eq_refl), sum_sq_refl.
    reflexivity.
  - intros d Hd. unfold Ndarray.get_threshold. cbn.
    rewrite Rminus_0_r, Rabs_pos_eq by exact Hd. reflexivity.
  - intros d u l. unfold Ndarray.get_threshold.
    cbn [Ndarray.subtract map Ndarray.absolute Ndarray.amax].
    eexists. split; [reflexivity|].
    intros v Hv. apply fold_max_bound.
    change (Rabs (d - u) :: map Rabs (map (fun v0 => d - v0) l))
      with (map Rabs (map (fun v0 => d - v0) (u :: l))).
    apply in_map, (in_map (fun v0 => d - v0)). exact Hv.
Qed.

Lemma unit_tests_hold_in_general_witness :
  Ndarray.get_threshold (Ndarray.Scalar 2) (Ndarray.Array [0])
  = Return (2 * sqrt 2).
Proof.
  apply (proj1 (proj2 unit_tests_hold_in_general) 2). lra.
Defined.

(** * Row objects of the ideal table *)

Lemma getattr_ycols (row : nat -> R) (js : list nat) (j : nat) :
  In j js ->
  IdealFunctions.getattr (map (fun i => (ycol i, row i)) js) (ycol j)
  = Some (row j).
Proof.
  induction js as [|j' js IH]; intros Hin; [contradiction|].
  cbn [map IdealFunctions.getattr].
  destruct (String.eqb (ycol j') (ycol j)) eqn:E.
  - apply String.eqb_eq, ycol_inj in E. subst. reflexivity.
  - destruct Hin as [->|Hin]; [|auto].
    rewrite String.eqb_refl in E. discriminate.
Qed.

Lemma in_range_check (n : Z) :
  (1 <= n <= 50)%Z ->
  negb ((1 <=? n)%Z && (n <=? 50)%Z) = false /\
  (1 <= Z.to_nat n <= 50)%nat.
Proof.
  intros [H1 H2]. split; [|lia].
  rewrite (proj2 (Z.leb_le 1 n) H1), (proj2 (Z.leb_le n 50) H2). reflexivity.
Qed.

Lemma out_of_range_check (n : Z) :
  ~ (1 <= n <= 50)%Z -> negb ((1 <=? n)%Z && (n <=? 50)%Z) = true.
Proof.
  intros H. destruct (1 <=? n)%Z eqn:E1; [|reflexivity].
  destruct (n <=? 50)%Z eqn:E2; [|reflexivity].
  apply Z.leb_le in E1, E2. exfalso. apply H. lia.
Qed.

Lemma get_y_value_from_row (x_val : R) (row : nat -> R) (n : Z) :
  (1 <= n <= 50)%Z ->
  IdealFunctions.get_y_value (IdealFunctions.from_row x_val row) n
  = Return (Some (row (Z.to_nat n))).
Proof.
  intros Hn. unfold IdealFunctions.get_y_value.
  destruct (in_range_check n Hn) as [-> Hr].
  unfold IdealFunctions.from_row. cbn [IdealFunctions.getattr].
  rewrite ycol_not_x, getattr_ycols; [reflexivity|].
  unfold range. apply in_seq. lia.
Qed.

(** X15. A row object built the way the loader builds it gives back,
    for every function number from 1 to 50, the value it was built
    with, never [None]; any other function number is refused with a
    [ValueError], whatever the row object. *)
Theorem get_y_value_round_trip (x_val : R) (row : nat -> R)
    (self : IdealFunctions.t) (n : Z) :
  ((1 <= n <= 50)%Z ->
   IdealFunctions.get_y_value (IdealFunctions.from_row x_val row) n
   = Return (Some (row (Z.to_nat n)))) /\
  (~ (1 <= n <= 50)%Z ->
   IdealFunctions.get_y_value self n = Throw ValueError).
Proof.
  split; intros Hn.
  - apply get_y_value_from_row. exact Hn.
  - unfold IdealFunctions.get_y_value.
    rewrite (out_of_range_check n Hn). reflexivity.
Qed.

Lemma get_y_value_round_trip_witness :
  IdealFunctions.get_y_value (IdealFunctions.from_row 0 INR) 7
    = Return (Some (INR 7)) /\
  IdealFunctions.get_y_value (IdealFunctions.from_row 0 INR) 51
    = Throw ValueError.
Proof.
  destruct (get_y_value_round_trip 0 INR (IdealFunctions.from_row 0 INR) 7)
    as [H7 _].
  destruct (get_y_value_round_trip 0 INR (IdealFunctions.from_row 0 INR) 51)
    as [_ H51].
  split; [apply H7; lia | apply H51; lia].
Defined.

(** X16. For a function number from 1 to 50 the pairs returned for the
    rows of the ideal table are, row by row and in the order of the
    rows, the x and the value of that function; no pair holds [None],
    and an empty table gives the empty list.  Any other function number
    is refused before the rows are looked at. *)
Theorem get_function_data_pairs (xs : list R) (rows : list (nat -> R))
    (data : list IdealFunctions.t) (n : Z) :
  ((1 <= n <= 50)%Z ->
   IdealFunctions.get_function_data
     (map (fun p => IdealFunctions.from_row (fst p) (snd p))
          (combine xs rows)) n
   = Return (map (fun p => (Some (fst p), Some (snd p (Z.to_nat n))))
                 (combine xs rows))) /\
  (~ (1 <= n <= 50)%Z ->
   IdealFunctions.get_function_data data n = Throw ValueError).
Proof.
  unfold IdealFunctions.get_function_data. split; intros Hn.
  - destruct (in_range_check n Hn) as [-> _]. cbv iota.
    induction (combine xs rows) as [|p l IH]; [reflexivity|].
    cbn [map].
    rewrite (get_y_value_from_row (fst p) (snd p) n Hn).
    rewrite IH. reflexivity.
  - rewrite (out_of_range_check n Hn). reflexivity.
Qed.

Lemma get_function_data_pairs_witness :
  IdealFunctions.get_function_data
    (map (fun p => IdealFunctions.from_row (fst p) (snd p))
         (combine [0; 1] [INR; INR])) 7
  = Return [(Some 0, Some (INR 7)); (Some 1, Some (INR 7))].
Proof.
  apply (proj1 (get_function_data_pairs [0; 1] [INR; INR] [] 7)). lia.
Defined.

(** * The chosen ideals of the visualization *)

Lemma label_eqb_eq (a b : option string) :
  Visualization.label_eqb a b = true <-> a = b.
Proof.
  destruct a as [u|], b as [v|]; cbn; try (split; congruence).
  rewrite String.eqb_eq. split; congruence.
Qed.

Lemma existsb_label (a : option string) (seen : list (option string)) :
  existsb (Visualization.label_eqb a) seen = true <-> In a seen.
Proof.
  rewrite existsb_exists. split.
  - intros (b & Hin & Heq). apply label_eqb_eq in Heq. subst. exact Hin.
  - intros Hin. exists a. split; [exact Hin | apply label_eqb_eq; reflexivity].
Qed.

Lemma unique_from_spec (l seen : list (option string)) :
  NoDup (Visualization.unique_from seen l) /\
  forall a, In a (Visualization.unique_from seen l) <->
            In a l /\ ~ In a seen.
Proof.
  revert seen; induction l as [|b l IH]; intros seen; cbn.
  - split; [constructor | intros a; tauto].
  - destruct (existsb (Visualization.label_eqb b) seen) eqn:E.
    + apply existsb_label in E. destruct (IH seen) as [Hnd Hin].
      split; [exact Hnd|]. intros a. rewrite Hin. split.
      * intros [H1 H2]. auto.
      * intros [[<-|H1] H2]; [contradiction | auto].
    + assert (Hb : ~ In b seen).
      { intros H. apply existsb_label in H. congruence. }
      destruct (IH (b :: seen)) as [Hnd Hin]. split.
      * constructor; [|exact Hnd]. rewrite Hin. cbn. tauto.
      * intros a. cbn. rewrite Hin. cbn. split.
        -- intros [<- | [H1 H2]]; [auto|]. split; [auto|]. tauto.
        -- intros [[<-|H1] H2]; [auto|].
           destruct (label_eqb_eq b a) as [_ Hd].
           destruct (Visualization.label_eqb b a) eqn:Eb.
           ++ left. apply label_eqb_eq. exact Eb.
           ++ right. split; [exact H1|]. intros [->|H]; [|contradiction].
              specialize (Hd eq_refl). discriminate.
Qed.

Lemma not_none_spec (l : list (option string)) :
  (NoDup l -> NoDup (Visualization.not_none l)) /\
  forall u, In u (Visualization.not_none l) <-> In (Some u) l.
Proof.
  induction l as [|[v|] l [IHn IHi]]; cbn.
  - split; [intros _; constructor | intros u; split; intros []].
  - split.
    + intros H. inversion H as [|? ? Hv Hl]; subst.
      constructor; [rewrite IHi; exact Hv | auto].
    + intros u. rewrite IHi. split.
      * intros [->|H]; auto.
      * intros [H|H]; [injection H as ->; auto | auto].
  - split.
    + intros H. inversion H; subst. auto.
    + intros u. rewrite IHi. split; [auto|]. intros [H|H]; [discriminate|auto].
Qed.

Lemma insert_perm (a : string) (l : list string) :
  Permutation (Visualization.insert a l) (a :: l).
Proof.
  induction l as [|b l IH]; cbn; [reflexivity|].
  destruct (String.leb a b); [reflexivity|].
  rewrite IH. apply perm_swap.
Qed.

Lemma sort_perm (l : list string) : Permutation (Visualization.sort l) l.
Proof.
  induction l as [|a l IH]; cbn; [reflexivity|].
  rewrite insert_perm, IH. reflexivity.
Qed.

(** The chosen ideals are the distinct labels of the result table. *)
Lemma chosen_ideals_spec (labels : list (option string)) :
  NoDup (Visualization.chosen_ideals labels) /\
  forall u, In u (Visualization.chosen_ideals labels) <-> In (Some u) labels.
Proof.
  unfold Visualization.chosen_ideals, Visualization.unique.
  destruct (unique_from_spec labels []) as [Hnd Hin].
  destruct (not_none_spec (Visualization.unique_from [] labels)) as [Hn Hi].
  split.
  - eapply Permutation_NoDup; [symmetry; apply sort_perm | auto].
  - intros u. split.
    + intros H. eapply Permutation_in in H; [|apply sort_perm].
      apply Hi, Hin in H. tauto.
    + intros H. eapply Permutation_in; [symmetry; apply sort_perm|].
      apply Hi, Hin. cbn. tauto.
Qed.

Lemma index_cases (A : Type) (l : list A) (i : nat) :
  ((i < length l)%nat /\ exists a, Visualization.index l i = Ok a) \/
  ((length l <= i)%nat /\ Visualization.index l i = Raise IndexError).
Proof.
  unfold Visualization.index.
  destruct (nth_error l i) as [a|] eqn:E.
  - left. split; [apply nth_error_Some; congruence | eauto].
  - right. split; [apply nth_error_None; exact E | reflexivity].
Qed.

(** A loop that finishes has appended one plot per chosen ideal. *)
Lemma plot_loop_length (train_df ideal_df : DataFrame)
    (chosen : list string) :
  forall i acc plots,
    Visualization.plot_loop train_df ideal_df i chosen acc = Ok plots ->
    length plots = (length acc + length chosen)%nat.
Proof.
  induction chosen as [|name chosen IH]; intros i acc plots H.
  - cbn in H. injection H as <-. cbn. lia.
  - cbn [Visualization.plot_loop] in H.
    apply bind_ok in H. destruct H as (tx & _ & H).
    apply bind_ok in H. destruct H as (ty & _ & H).
    apply bind_ok in H. destruct H as (col & _ & H).
    apply bind_ok in H. destruct H as (ix & _ & H).
    apply bind_ok in H. destruct H as (iy & _ & H).
    apply IH in H. rewrite H, length_app. cbn. lia.
Qed.

(** The loop fails with nothing but a [KeyError] or an [IndexError]. *)
Lemma plot_loop_cases (train_df ideal_df : DataFrame)
    (chosen : list string) :
  forall i acc,
    (exists plots,
        Visualization.plot_loop train_df ideal_df i chosen acc = Ok plots) \/
    Visualization.plot_loop train_df ideal_df i chosen acc = Raise KeyError \/
    Visualization.plot_loop train_df ideal_df i chosen acc = Raise IndexError.
Proof.
  induction chosen as [|name chosen IH]; intros i acc.
  - left. cbn. eauto.
  - cbn [Visualization.plot_loop].
    destruct (getitem_cases train_df "x") as [E | [tx E]]; rewrite E;
      cbn [bind]; [auto|].
    destruct (getitem_cases train_df (ycol (i + 1))) as [E1 | [ty E1]];
      rewrite E1; cbn [bind]; [auto|].
    destruct (index_cases _ Visualization.colors i)
      as [[_ [col E2]] | [_ E2]]; rewrite E2; cbn [bind]; [|auto].
    destruct (getitem_cases ideal_df "x") as [E3 | [ix E3]]; rewrite E3;
      cbn [bind]; [auto|].
    destruct (getitem_cases ideal_df name) as [E4 | [iy E4]]; rewrite E4;
      cbn [bind]; [auto|].
    apply IH.
Qed.

Lemma not_none_length (l : list (option string)) :
  (length (Visualization.not_none l) <= length l)%nat.
Proof. induction l as [|[v|] l IH]; cbn; lia. Qed.

(** With the columns at hand and at most four chosen ideals the loop
    finishes. *)
Lemma plot_loop_ok (train_df ideal_df : DataFrame) (chosen : list string) :
  (exists s, getitem train_df "x" = Ok s) ->
  (forall k, (1 <= k <= 4)%nat -> exists s, getitem train_df (ycol k) = Ok s) ->
  (exists s, getitem ideal_df "x" = Ok s) ->
  (forall u, In u chosen -> exists s, getitem ideal_df u = Ok s) ->
  forall i acc,
    (i + length chosen <= 4)%nat ->
    exists plots,
      Visualization.plot_loop train_df ideal_df i chosen acc = Ok plots.
Proof.
  intros [tx Htx] Hty [ix Hix] Hiy.
  induction chosen as [|name chosen IH]; intros i acc Hi.
  - cbn. eauto.
  - cbn [Visualization.plot_loop]. cbn [length] in Hi.
    rewrite Htx. cbn [bind].
    destruct (Hty (i + 1)%nat) as [ty Ety]; [lia|]. rewrite Ety. cbn [bind].
    destruct (index_cases _ Visualization.colors i)
      as [[_ [col E]] | [Hlen _]]; [|cbn in Hlen; lia].
    rewrite E. cbn [bind]. rewrite Hix. cbn [bind].
    destruct (Hiy name) as [iy Eiy]; [left; reflexivity|].
    rewrite Eiy. cbn [bind].
    apply IH; [|lia]. intros u Hu. apply Hiy. right. exact Hu.
Qed.

(** The grid needs four plots. *)
Lemma grid_cases (train_df ideal_df : DataFrame)
    (labels : list (option string)) (plots : list Visualization.Plot) :
  Visualization.plot_loop train_df ideal_df 0
    (Visualization.chosen_ideals labels) [] = Ok plots ->
  ((4 <= length plots)%nat /\
   exists grid, Visualization.visualize_results train_df ideal_df labels
                = Ok grid) \/
  ((length plots < 4)%nat /\
   Visualization.visualize_results train_df ideal_df labels
   = Raise IndexError).
Proof.
  intros E. unfold Visualization.visualize_results. rewrite E. cbn [bind].
  destruct (index_cases _ plots 0) as [[H0 [p0 E0]] | [H0 E0]]; rewrite E0;
    cbn [bind]; [|right; split; [lia | reflexivity]].
  destruct (index_cases _ plots 1) as [[H1 [p1 E1]] | [H1 E1]]; rewrite E1;
    cbn [bind]; [|right; split; [lia | reflexivity]].
  destruct (index_cases _ plots 2) as [[H2 [p2 E2]] | [H2 E2]]; rewrite E2;
    cbn [bind]; [|right; split; [lia | reflexivity]].
  destruct (index_cases _ plots 3) as [[H3 [p3 E3]] | [H3 E3]]; rewrite E3;
    cbn [bind]; [|right; split; [lia | reflexivity]].
  left. split; [lia | eauto].
Qed.

(** X17. The visualization shows its grid only if the result table
    names at least four different ideal functions; it never does
    anything but show the grid or print a [KeyError] or an
    [IndexError]. *)
Theorem visualization_needs_four_ideals (train_df ideal_df : DataFrame)
    (labels : list (option string)) :
  (forall grid,
      Visualization.visualize_results train_df ideal_df labels = Ok grid ->
      exists names,
        NoDup names /\ length names = 4%nat /\
        forall u, In u names -> In (Some u) labels) /\
  ((exists grid,
       Visualization.visualize_results train_df ideal_df labels = Ok grid) \/
   Visualization.visualize_results train_df ideal_df labels = Raise KeyError \/
   Visualization.visualize_results train_df ideal_df labels
     = Raise IndexError).
Proof.
  destruct (chosen_ideals_spec labels) as [Hnd Hin].
  destruct (plot_loop_cases train_df ideal_df
              (Visualization.chosen_ideals labels) 0 [])
    as [[plots E] | [E | E]].
  - pose proof (plot_loop_length _ _ _ _ _ _ E) as Hlen. cbn in Hlen.
    destruct (grid_cases _ _ _ _ E) as [[H4 [grid Eg]] | [H4 Eg]].
    + split; [|left; eauto]. intros _ _.
      exists (firstn 4 (Visualization.chosen_ideals labels)).
      split; [|split].
      * rewrite <- (firstn_skipn 4 (Visualization.chosen_ideals labels)) in Hnd.
        apply NoDup_app_remove_r in Hnd. exact Hnd.
      * apply firstn_length_le. lia.
      * intros u Hu. apply Hin.
        rewrite <- (firstn_skipn 4 (Visualization.chosen_ideals labels)).
        apply in_or_app. left. exact Hu.
    + split; [|right; right; exact Eg]. intros grid Hg.
      rewrite Hg in Eg. discriminate.
  - assert (Ev : Visualization.visualize_results train_df ideal_df labels
                 = Raise KeyError)
      by (unfold Visualization.visualize_results; rewrite E; reflexivity).
    split; [|right; left; exact Ev]. intros grid Hg.
    rewrite Hg in Ev. discriminate.
  - assert (Ev : Visualization.visualize_results train_df ideal_df labels
                 = Raise IndexError)
      by (unfold Visualization.visualize_results; rewrite E; reflexivity).
    split; [|right; right; exact Ev]. intros grid Hg.
    rewrite Hg in Ev. discriminate.
Qed.

Lemma visualization_needs_four_ideals_witness :
  exists names,
    NoDup names /\ length names = 4%nat /\
    forall u, In u names ->
              In (Some u) [Some "y3"; Some "y1"; Some "y2"; Some "y4";
                           Some "y1"].
Proof.
  set (labels := [Some "y3"; Some "y1"; Some "y2"; Some "y4"; Some "y1"]).
  assert (Hc : Visualization.chosen_ideals labels = ["y1"; "y2"; "y3"; "y4"])
    by reflexivity.
  destruct (plot_loop_ok ex_train ex_ideal (Visualization.chosen_ideals labels))
    with (i := 0%nat) (acc := @nil Visualization.Plot) as [plots E].
  - eexists. reflexivity.
  - intros k Hk. eexists.
    apply (getitem_mk_train [0; 1] (fun _ => [0; 1]) k Hk).
  - eexists. reflexivity.
  - rewrite Hc. intros u [<- | [<- | [<- | [<- | []]]]]; eexists; reflexivity.
  - rewrite Hc. cbn. lia.
  - pose proof (plot_loop_length _ _ _ _ _ _ E) as Hlen.
    rewrite Hc in Hlen. cbn in Hlen.
    destruct (grid_cases _ _ _ _ E) as [[_ [grid Eg]] | [H4 _]]; [|lia].
    exact (proj1 (visualization_needs_four_ideals ex_train ex_ideal labels)
             grid Eg).
Defined.

(** The labels of the records of a finished run are chosen ideals of
    its selections, and their columns exist. *)
Lemma stored_labels_selected (train_df ideal_df : DataFrame)
    (test_df : list TestRow) (sel : dict) (results : list ResultRow) :
  run_assignment train_df ideal_df test_df = Ok (sel, results) ->
  length sel = 4%nat /\
  forall u, In (Some u) (stored_labels results) ->
    In (Some u) (map snd sel) /\ exists s, getitem ideal_df u = Ok s.
Proof.
  intros Hrun.
  destruct (run_assignment_inv _ _ _ _ _ Hrun)
    as (sels & news & -> & Hlen & Hok & Hall & ->).
  split; [rewrite length_map; exact Hlen|].
  intros u Hu. unfold stored_labels in Hu. apply in_map_iff in Hu.
  destruct Hu as (r & Hr & Hin). injection Hr as <-.
  apply in_concat in Hin. destruct Hin as (new & Hnew & Hin).
  destruct (In_nth_error _ _ Hnew) as [k Hk].
  destruct (Forall2_nth_error_r _ _ _ _ _ _ _ Hall Hk) as (row & _ & Hmap).
  destruct (map_row_outcome _ _ _ _ _ Hok Hmap)
    as [[-> _] | (item & name & d & thr & Hitem & Hname & _ & _ & -> & _)];
    [contradiction|].
  destruct Hin as [<-|[]]. cbn [ideal_function_no].
  split.
  - rewrite <- Hname. apply in_map. exact Hitem.
  - apply in_map_iff in Hitem. destruct Hitem as (s & <- & Hs).
    destruct (proj1 (Forall_forall _ _) Hok s Hs)
      as (j0 & ty & iy & _ & Hc & _ & Hi & _).
    cbn [Spec.as_item snd] in Hname. rewrite Hc in Hname.
    injection Hname as <-. eauto.
Qed.

(** X18. After a finished run that recorded at least one point (so that
    the result table was written), with a training table that has its x
    column, the visualization shows its grid exactly when the records
    name four different ideal functions; with fewer it prints an
    [IndexError], and more than four cannot occur. *)
Theorem visualization_after_run (train_df ideal_df : DataFrame)
    (xs txs : Series) (t c : nat -> Series) (test_df : list TestRow)
    (sel : dict) (results : list ResultRow) :
  tables_ok train_df ideal_df xs t c ->
  getitem train_df "x" = Ok txs ->
  run_assignment train_df ideal_df test_df = Ok (sel, results) ->
  results <> [] ->
  let chosen := Visualization.chosen_ideals (stored_labels results) in
  (length chosen <= 4)%nat /\
  (length chosen = 4%nat ->
   exists grid,
     Visualization.visualize_results train_df ideal_df (stored_labels results)
     = Ok grid) /\
  ((length chosen < 4)%nat ->
   Visualization.visualize_results train_df ideal_df (stored_labels results)
   = Raise IndexError).
Proof.
  intros (Ht & Hc & Hx & _) Htx Hrun _ chosen.
  destruct (stored_labels_selected _ _ _ _ _ Hrun) as [Hlen Hlab].
  destruct (chosen_ideals_spec (stored_labels results)) as [Hnd Hin].
  fold chosen in Hnd, Hin.
  assert (Hle : (length chosen <= 4)%nat).
  { rewrite <- Hlen, <- (length_map snd sel).
    eapply Nat.le_trans; [|apply not_none_length].
    apply NoDup_incl_length; [exact Hnd|].
    intros u Hu. apply (proj2 (not_none_spec (map snd sel))).
    apply Hlab, Hin, Hu. }
  destruct (plot_loop_ok train_df ideal_df chosen) with (i := 0%nat)
    (acc := @nil Visualization.Plot) as [plots E].
  - eauto.
  - intros k Hk. eexists. apply Ht, Hk.
  - eauto.
  - intros u Hu. apply Hlab, Hin, Hu.
  - cbn. exact Hle.
  - pose proof (plot_loop_length _ _ _ _ _ _ E) as Hpl. cbn in Hpl.
    split; [exact Hle|].
    destruct (grid_cases _ _ _ _ E) as [[H4 Hg] | [H4 Hg]].
    + split; [intros _; exact Hg | intros Hlt; lia].
    + split; [intros Heq; lia | intros _; exact Hg].
Qed.

Lemma visualization_after_run_witness :
  Visualization.visualize_results ex_train ex_ideal
    (stored_labels [mkResultRow 0 0 (Finite 0) "y1"]) = Raise IndexError.
Proof.
  destruct (visualization_after_run ex_train ex_ideal [0; 1] [0; 1]
              (fun _ => [0; 1]) (fun _ => [0; 1])
              [row_on_curve; row_far_off] ex_selected
              [mkResultRow 0 0 (Finite 0) "y1"] ex_tables_ok eq_refl ex_run)
    as (_ & _ & H); [discriminate|].
  apply H. cbn. lia.
Defined.





(** * Records and the results loader *)

(** X20. The records that [run_assignment] builds do not pass the
    validation of the results loader: they carry the label under the
    key ['ideal_function_no'], not ['ideal_func_number'], so any
    non-empty list of them is refused with [InvalidDataError]; only the
    empty list passes. *)
Theorem run_records_fail_validation (results : list ResultRow) :
  (results <> [] ->
   ResultsDataLoader.validate_data (map as_dict results)
   = Throw InvalidDataError) /\
  (ResultsDataLoader.validate_data (map as_dict results) = Return true ->
   results = []).
Proof.
  assert (H : results <> [] ->
              ResultsDataLoader.validate_data (map as_dict results)
              = Throw InvalidDataError).
  { destruct results as [|r results]; [congruence|]. intros _. reflexivity. }
  split; [exact H|].
  intros Hv. destruct results as [|r results]; [reflexivity|].
  rewrite H in Hv by discriminate. discriminate.
Qed.

Lemma run_records_fail_validation_witness :
  ResultsDataLoader.validate_data
    (map as_dict [mkResultRow 0 0 (Finite 0) "y1"]) = Throw InvalidDataError.
Proof.
  apply (proj1 (run_records_fail_validation [mkResultRow 0 0 (Finite 0) "y1"])).
  discriminate.
Defined.
